(** * shadow_analyzer: a shallow embedding of [analyze_shadow_file]

    The audited program is the single function [analyze_shadow_file] of
    [shadow_analyzer_git.py].  It reads a shadow-style credential file line by
    line, applies a fixed set of password-policy checks to every well-formed
    line and writes the flagged accounts to a CSV table.

    Layout of the development:
    - [Py]: the built-in string and integer operations the function calls
      ([str.strip], [str.split], [str.join], [int], [str] of an integer,
      [timedelta.days]);
    - the ambient environment ([env]): effective uid, clock, the platform's
      [datetime.fromtimestamp], the files;
    - the function itself: the per-record checks in a small state-and-exception
      monad over the [issues] list, the per-line body, the loop, the driver;
    - a concrete environment (64-bit Linux, UTC) used to run the model;
    - the properties.

    Characters are Rocq's [ascii], read as the code points below 256. *)

From Stdlib Require Import ZArith NArith List String Ascii Bool Lia.
From Stdlib Require Import DecimalString DecimalZ.
Import ListNotations.

Local Open Scope string_scope.
Local Open Scope list_scope.
Local Open Scope Z_scope.

(** ** Exceptions and results *)

(** The exceptions the function tells apart while it evaluates one record.
    A [ValueError] is raised only inside the inner [try], whose handler never
    looks at the exception, so its message is not kept.  Every other
    [Exception] is seen by the per-line handler, which prints [str(e)]. *)
Inductive exn : Type :=
| ValueError
| OtherException (msg : string).

(** The exceptions that reach the outer [try] of the function. *)
Inductive run_exn : Type :=
| PermissionError (msg : string)
| FileNotFoundError
| UnexpectedError (msg : string).

Inductive result (E A : Type) : Type :=
| Ok (a : A)
| Raise (e : E).
Arguments Ok {E A} a.
Arguments Raise {E A} e.

(** ** The Python built-ins used by the function *)
Module Py.

Definition code (c : ascii) : N := N_of_ascii c.

(** [str.isspace] on the code points below 256: the set [str.strip] removes. *)
Definition isspace (c : ascii) : bool :=
  let n := code c in
  ((9 <=? n) && (n <=? 13) || (28 <=? n) && (n <=? 31)
   || (n =? 32) || (n =? 133) || (n =? 160))%N.

(** The white space [int] skips around a literal: C's [isspace] on ASCII,
    plus the two non-ASCII spaces below 256.  The separators 28..31 are
    stripped by [str.strip] but rejected by [int]. *)
Definition int_isspace (c : ascii) : bool :=
  let n := code c in
  ((9 <=? n) && (n <=? 13) || (n =? 32) || (n =? 133) || (n =? 160))%N.

Fixpoint lstrip_with (p : ascii -> bool) (s : string) : string :=
  match s with
  | EmptyString => EmptyString
  | String c s' => if p c then lstrip_with p s' else s
  end.

Fixpoint rstrip_with (p : ascii -> bool) (s : string) : string :=
  match s with
  | EmptyString => EmptyString
  | String c s' =>
      match rstrip_with p s' with
      | EmptyString => if p c then EmptyString else String c EmptyString
      | r => String c r
      end
  end.

(** [s.strip()] *)
Definition strip (s : string) : string :=
  rstrip_with isspace (lstrip_with isspace s).

(** [s.split(sep)] for a one-character separator: never the empty list. *)
Fixpoint split (sep : ascii) (s : string) : list string :=
  match s with
  | EmptyString => [EmptyString]
  | String c s' =>
      if Ascii.eqb c sep then EmptyString :: split sep s'
      else match split sep s' with
           | f :: fs => String c f :: fs
           | [] => [String c EmptyString]
           end
  end.

(** [sep.join(l)] *)
Fixpoint join (sep : string) (l : list string) : string :=
  match l with
  | [] => EmptyString
  | x :: xs =>
      match xs with
      | [] => x
      | _ :: _ => x ++ sep ++ join sep xs
      end
  end.

(** Truthiness of a string and of a list. *)
Definition truthy (s : string) : bool :=
  match s with EmptyString => false | String _ _ => true end.

Definition nonempty {A : Type} (l : list A) : bool :=
  match l with [] => false | _ :: _ => true end.

(** [x in l] for a list of strings. *)
Definition str_in (x : string) (l : list string) : bool :=
  existsb (String.eqb x) l.

Definition is_digit (c : ascii) : bool :=
  ((48 <=? code c) && (code c <=? 57))%N.

Definition digit_value (c : ascii) : Z := Z.of_N (code c) - 48.

(** The digit scan of [PyLong_FromString] in base 10: digits, with single
    underscores between them.  [prev] is the character read last, [acc] the
    value so far, [digits] the number of digits read.  The scan stops at the
    first character that is neither a digit nor an underscore and hands
    back the rest; it fails on a doubled or a trailing underscore. *)
Fixpoint scan_digits (s : string) (prev : option ascii) (acc : Z) (digits : N)
  : option (Z * N * string) :=
  let stop :=
    match prev with
    | Some "_"%char => None
    | _ => Some (acc, digits, s)
    end in
  match s with
  | EmptyString => stop
  | String c s' =>
      if is_digit c then
        scan_digits s' (Some c) (10 * acc + digit_value c) (digits + 1)
      else if Ascii.eqb c "_" then
        match prev with
        | Some "_"%char => None
        | _ => scan_digits s' (Some c) acc digits
        end
      else stop
  end.

(** Above this many digits the interpreter consults the digit limit. *)
Definition str_digits_check_threshold : N := 640.

(** [int(s)] for a string, base 10; [None] stands for [ValueError].
    [max_str_digits] is [sys.get_int_max_str_digits()], 0 when the limit is
    off (or the interpreter predates it). *)
Definition int_parse (max_str_digits : N) (s : string) : option Z :=
  let s1 := lstrip_with int_isspace s in
  let '(negative, s2) :=
    match s1 with
    | String "-" r => (true, r)
    | String "+" r => (false, r)
    | _ => (false, s1)
    end in
  match s2 with
  | String "_" _ => None
  | _ =>
      match scan_digits s2 None 0 0 with
      | None => None
      | Some (v, digits, rest) =>
          if (digits =? 0)%N then None
          else if ((str_digits_check_threshold <? digits)
                   && (0 <? max_str_digits) && (max_str_digits <? digits))%N
          then None
          else
            match lstrip_with int_isspace rest with
            | EmptyString => Some (if negative then - v else v)
            | String _ _ => None
            end
      end
  end.

(** [str(n)] for an integer: decimal digits, a leading minus when negative.
    The interpreter refuses the conversion only beyond
    [str_digits_check_threshold] digits; the function formats a difference
    of day counts, which has seven digits at most. *)
Definition str_of_int (n : Z) : string :=
  NilEmpty.string_of_int (Z.to_int n).

(** Microseconds in a day. *)
Definition day_us : Z := 86400 * 1000000.

(** [.days] of a [timedelta] holding [us] microseconds.  A timedelta is
    normalised with [0 <= seconds < 86400] and [0 <= microseconds < 10^6],
    so the day count is the floor of the quotient. *)
Definition timedelta_days (us : Z) : Z := us / day_us.

End Py.

(** ** The ambient environment

    A naive [datetime] is the number of microseconds between
    1970-01-01T00:00:00 and it, on the local calendar; a [timedelta] is a
    number of microseconds.  What the function reads from its surroundings:
    - [geteuid]: [os.geteuid()];
    - [now i]: what [datetime.now()] returns while line number [i] (from 0) is
      being processed; the function reads the clock once per record;
    - [fromtimestamp t]: [datetime.fromtimestamp(t)] for an integer [t], which
      depends on the C library and the time zone: the local datetime, a
      [ValueError] (year outside 1..9999), or another exception
      ([OverflowError], [OSError]) with its message;
    - [int_max_str_digits]: the interpreter's limit on integer literals;
    - [open_read path]: opening [path] for reading and iterating over it: the
      lines, and the exception that ended the iteration early if there is one;
    - [open_write path]: opening [path] for writing. *)
Record env : Type := {
  geteuid : Z;
  now : nat -> Z;
  fromtimestamp : Z -> result exn Z;
  int_max_str_digits : N;
  open_read : string -> result run_exn (list string * option run_exn);
  open_write : string -> result run_exn unit
}.

(** What the function does to the outside, in order. *)
Inductive event : Type :=
| Print (s : string)
| OpenRead (path : string)
| OpenWrite (path : string)
| WriteRow (path : string) (cells : list string).

(** ** The checks of one record

    The body of the loop appends to the list [issues] and may raise.  [M E A]
    is a computation over that list raising exceptions of type [E]; what was
    appended before an exception stays appended. *)
Definition M (E A : Type) : Type := list string -> result E A * list string.

Definition ret {E A : Type} (a : A) : M E A := fun issues => (Ok a, issues).

Definition bind {E A B : Type} (m : M E A) (k : A -> M E B) : M E B :=
  fun issues =>
    match m issues with
    | (Ok a, issues') => k a issues'
    | (Raise e, issues') => (Raise e, issues')
    end.

Definition lift {E A : Type} (r : result E A) : M E A := fun issues => (r, issues).

(** [issues.append(x)] *)
Definition append {E : Type} (x : string) : M E unit :=
  fun issues => (Ok tt, issues ++ [x]).

(** After the inner [try ... except ValueError], the exceptions left are the
    other ones, kept as their [str(e)]. *)
Definition other_exn : Type := string.

(** [try: body  except ValueError: handler] *)
Definition try_except_ValueError {A : Type} (body : M exn A) (handler : M other_exn A)
  : M other_exn A :=
  fun issues =>
    match body issues with
    | (Ok a, issues') => (Ok a, issues')
    | (Raise ValueError, issues') => handler issues'
    | (Raise (OtherException msg), issues') => (Raise msg, issues')
    end.

Notation "x <- m ;; k" := (bind m (fun x => k))
  (at level 61, m at next level, right associativity).
Notation "m ;; k" := (bind m (fun _ => k))
  (at level 61, right associativity).

(** The fields the function picks out of a split line, by position. *)
Record credential : Type := {
  username : string;
  password_field : string;
  last_changed : string;
  min_age : string;
  max_age : string;
  warning_period : string
}.

(** One entry of [security_issues]: a dict with these five keys. *)
Record issue_row : Type := {
  row_username : string;
  row_issues : string;
  row_last_changed : string;
  row_max_age : string;
  row_warning_period : string
}.

Record loop_state : Type := {
  security_issues : list issue_row;
  trace : list event
}.

(** The findings, as the source spells them. *)
Definition no_password_set : string := "No password set".
Definition stored_in_shadow : string := "Password stored in /etc/shadow".
Definition no_expiry_set : string := "No password expiry set".
Definition changed_today : string := "Password changed today - verify if authorized".
Definition invalid_date : string := "Invalid date format in password age field".
Definition password_expired (n : Z) : string :=
  ("Password expired " ++ Py.str_of_int n ++ " days ago")%string.

Section Analyzer.

Variable E : env.

(** [int(s)] *)
Definition int (s : string) : M exn Z :=
  lift (match Py.int_parse (int_max_str_digits E) s with
        | Some z => Ok z
        | None => Raise ValueError
        end).

(** Lines 43-46: the password-presence check. *)
Definition password_check {X : Type} (password_field : string) : M X unit :=
  if Py.str_in password_field [""; "*"; "!"; "!!"]%string then
    append no_password_set
  else if String.eqb password_field "x" then
    append stored_in_shadow
  else ret tt.

(** Lines 51-55: the age of the password in days.  [now] is the value of
    [datetime.now()]. *)
Definition days_since_change (now : Z) (last_changed : string) : M exn Z :=
  last_change_date <- int last_changed ;;
  changed <- lift (fromtimestamp E (last_change_date * 86400)) ;;
  ret (Py.timedelta_days (now - changed)).

(** Lines 51-64: the body of the inner [try]; [int(max_age)] is evaluated as
    often as the source evaluates it. *)
Definition age_checks (now : Z) (last_changed max_age : string) : M exn unit :=
  days <- days_since_change now last_changed ;;
  expires <- (if Py.truthy max_age
              then (m <- int max_age ;; ret (0 <? m))
              else ret false) ;;
  (if expires : bool then
     m <- int max_age ;;
     if m <? days then
       m' <- int max_age ;;
       append (password_expired (days - m'))
     else ret tt
   else append no_expiry_set) ;;
  if days <? 1 then append changed_today else ret tt.

(** Lines 40-66: all the checks of one record, on the list [issues]. *)
Definition evaluate (now : Z) (r : credential) : M other_exn unit :=
  password_check (password_field r) ;;
  if Py.truthy (last_changed r) then
    try_except_ValueError
      (age_checks now (last_changed r) (max_age r))
      (append invalid_date)
  else ret tt.

(** Lines 33-38. *)
Definition fields (parts : list string) : credential :=
  {| username := nth 0 parts EmptyString;
     password_field := nth 1 parts EmptyString;
     last_changed := nth 2 parts EmptyString;
     min_age := nth 3 parts EmptyString;
     max_age := nth 4 parts EmptyString;
     warning_period := nth 5 parts EmptyString |}.

(** Lines 70-76: the dict appended for a record with findings. *)
Definition make_row (r : credential) (issues : list string) : issue_row :=
  {| row_username := username r;
     row_issues := Py.join "; " issues;
     row_last_changed := last_changed r;
     row_max_age := max_age r;
     row_warning_period := warning_period r |}.

Definition print (s : string) (st : loop_state) : loop_state :=
  {| security_issues := security_issues st; trace := trace st ++ [Print s] |}.

Definition append_issue (row : issue_row) (st : loop_state) : loop_state :=
  {| security_issues := security_issues st ++ [row]; trace := trace st |}.

(** Lines 25-81: the body of the [for] loop, with its handler. *)
Definition process_line (now : Z) (line : string) (st : loop_state) : loop_state :=
  let parts := Py.split ":" (Py.strip line) in
  if (List.length parts <? 9)%nat then
    print ("Skipping malformed line: " ++ Py.strip line) st
  else
    let r := fields parts in
    match evaluate now r [] with
    | (Ok _, issues) =>
        if Py.nonempty issues then append_issue (make_row r issues) st else st
    | (Raise msg, _) =>
        print ("Error details: " ++ msg)
          (print ("Error processing line for user: "
                  ++ (if (0 <? List.length parts)%nat
                      then nth 0 parts EmptyString else "unknown")) st)
    end.

(** Lines 24-81: the loop; [i] is the number of the line being read. *)
Fixpoint loop (i : nat) (lines : list string) (st : loop_state) : loop_state :=
  match lines with
  | [] => st
  | line :: rest => loop (S i) rest (process_line (now E i) line st)
  end.

Definition fieldnames : list string :=
  ["username"; "issues"; "last_changed"; "max_age"; "warning_period"]%string.

(** [DictWriter.writerow]: the values of the dict in the order of [fieldnames]. *)
Definition cells (row : issue_row) : list string :=
  [row_username row; row_issues row; row_last_changed row;
   row_max_age row; row_warning_period row].

(** Lines 94-101: the three handlers of the outer [try]. *)
Definition handle (input_path : string) (e : run_exn) : list event :=
  match e with
  | PermissionError msg =>
      [Print ("Permission error: " ++ msg);
       Print "Please run the script with sudo:";
       Print "sudo python3 shadow_analyzer.py"]
  | FileNotFoundError =>
      [Print ("Error: Could not find shadow file at " ++ input_path)]
  | UnexpectedError msg =>
      [Print ("An unexpected error occurred: " ++ msg)]
  end.

(** Lines 83-92: writing the table and the summary. *)
Definition write_report (output_path : string) (rows : list issue_row) : list event :=
  WriteRow output_path fieldnames
    :: map (fun row => WriteRow output_path (cells row)) rows
    ++ [Print (String "010" "Analysis complete. Found "
               ++ Py.str_of_int (Z.of_nat (List.length rows))
               ++ " potential security issues.");
        Print ("Results written to " ++ output_path)].

(** The whole function: everything it prints, opens and writes, in order. *)
Definition analyze_shadow_file (input_path output_path : string) : list event :=
  if negb (geteuid E =? 0) then
    handle input_path
      (PermissionError "This script must be run as root to access /etc/shadow")
  else
    let start := {| security_issues := [];
                    trace := [Print "Attempting to read shadow file...";
                              OpenRead input_path] |} in
    match open_read E input_path with
    | Raise e => trace start ++ handle input_path e
    | Ok (lines, failure) =>
        let st := loop 0 lines start in
        match failure with
        | Some e => trace st ++ handle input_path e
        | None =>
            match open_write E output_path with
            | Raise e => trace st ++ OpenWrite output_path :: handle input_path e
            | Ok _ =>
                trace st ++ OpenWrite output_path
                  :: write_report output_path (security_issues st)
            end
        end
    end.

End Analyzer.

(** ** Views of the function used to state its properties *)

(** The findings of a record: the list [issues] once the checks are through
    (what line 69 tests), or the exception that sent the line to the per-line
    handler, which drops it together with whatever [issues] held. *)
Definition findings (E : env) (now : Z) (r : credential)
  : result other_exn (list string) :=
  match evaluate E now r [] with
  | (Ok _, issues) => Ok issues
  | (Raise msg, _) => Raise msg
  end.

(** What the password-presence check contributes. *)
Definition password_findings (password_field : string) : list string :=
  snd (password_check (X := other_exn) password_field []).

(** The record of a line: none for a line with fewer than 9 fields. *)
Definition record_of_line (line : string) : option credential :=
  let parts := Py.split ":" (Py.strip line) in
  if (List.length parts <? 9)%nat then None else Some (fields parts).

(** The row a line contributes to the report when it is read at [now]. *)
Definition row_of_line (E : env) (now : Z) (line : string) : list issue_row :=
  match record_of_line line with
  | Some r =>
      match findings E now r with
      | Ok (f :: fs) => [make_row r (f :: fs)]
      | _ => []
      end
  | None => []
  end.

(** The report as the specification words it: going through the lines in
    order, one row for each record that ends its checks with at least one
    finding, none for any other line. *)
Fixpoint report_rows (E : env) (i : nat) (lines : list string) : list issue_row :=
  match lines with
  | [] => []
  | line :: rest => row_of_line E (now E i) line ++ report_rows E (S i) rest
  end.

(** The rows written to [path], in order. *)
Definition written (path : string) (t : list event) : list (list string) :=
  flat_map (fun e => match e with
                     | WriteRow p c => if String.eqb p path then [c] else []
                     | _ => []
                     end) t.

(** The files opened for reading, and those opened for writing. *)
Definition reads (t : list event) : list string :=
  flat_map (fun e => match e with OpenRead p => [p] | _ => [] end) t.

Definition writes (t : list event) : list string :=
  flat_map (fun e => match e with
                     | OpenWrite p => [p]
                     | WriteRow p _ => [p]
                     | _ => []
                     end) t.

(** The findings that come from the age checks. *)
Definition age_finding (f : string) : Prop :=
  f = no_expiry_set \/ f = changed_today \/ f = invalid_date
  \/ exists n : Z, f = password_expired n.

(** A computation that only appends findings satisfying [P] to [issues]. *)
Definition appends {X A : Type} (P : string -> Prop) (m : M X A) : Prop :=
  forall issues, exists rest,
    snd (m issues) = issues ++ rest /\ Forall P rest.

(** What the last age check appends for a password that is [days] days old. *)
Definition today_part (days : Z) : list string :=
  if days <? 1 then [changed_today] else [].

(** ** A concrete environment: CPython 3.11 on 64-bit Linux, time zone UTC *)
Module Linux.

(** [time_t] is a signed 64-bit integer. *)
Definition time_t_min : Z := - 2 ^ 63.
Definition time_t_max : Z := 2 ^ 63 - 1.

(** glibc's [localtime_r] fails with EOVERFLOW when the year minus 1900 does
    not fit a C [int]: the first and the last second it converts. *)
Definition localtime_min : Z := -67768040609740800.
Definition localtime_max : Z := 67768036191676799.

(** A [datetime] has a year from 1 to 9999; [fromtimestamp] also converts the
    moment one day earlier (to detect a repeated local hour), so in UTC the
    first timestamp it accepts is 0001-01-02T00:00:00 and the last is
    9999-12-31T23:59:59. *)
Definition datetime_min_ts : Z := -62135510400.
Definition datetime_max_ts : Z := 253402300799.

Definition fromtimestamp_utc (t : Z) : result exn Z :=
  if (t <? time_t_min) || (time_t_max <? t) then
    Raise (OtherException "timestamp out of range for platform time_t")
  else if (t <? localtime_min) || (localtime_max <? t) then
    Raise (OtherException "[Errno 75] Value too large for defined data type")
  else if (t <? datetime_min_ts) || (datetime_max_ts <? t) then
    Raise ValueError
  else Ok (t * 1000000).

(** Noon of 2024-10-04, day 20000 after the epoch. *)
Definition noon_20000 : Z := (20000 * 86400 + 43200) * 1000000.

(** An environment with a fixed clock and one readable file. *)
Definition environment (euid clock : Z) (path : string) (lines : list string) : env :=
  {| geteuid := euid;
     now := fun _ => clock;
     fromtimestamp := fromtimestamp_utc;
     int_max_str_digits := 4300;
     open_read := fun p => if String.eqb p path then Ok (lines, None)
                           else Raise FileNotFoundError;
     open_write := fun _ => Ok tt |}.

Definition root_env : env := environment 0 noon_20000 "/etc/shadow" [].

Definition entry (password last_changed max_age : string) : credential :=
  {| username := "alice"; password_field := password;
     last_changed := last_changed; min_age := "0";
     max_age := max_age; warning_period := "7" |}.

(** Changed on day 19900, to be changed every 90 days. *)
Definition bob : credential := entry "x" "19900" "90".

(** A day count far beyond the year 9999. *)
Definition far_future : string := "99999999".

(** Changed on day 20000, with a maximum age that is no number. *)
Definition bad_max_age : credential := entry "x" "20000" "abc".

(** The last microsecond of day 19999. *)
Definition before_midnight : Z := 20000 * 86400 * 1000000 - 1.

End Linux.

(** Two lines that agree on the fields the function uses: both have at least
    9 fields, and the fields 0, 1, 2, 4 and 5 are the same. *)
Definition same_used_fields (line1 line2 : string) : Prop :=
  let parts1 := Py.split ":" (Py.strip line1) in
  let parts2 := Py.split ":" (Py.strip line2) in
  (9 <= List.length parts1)%nat /\ (9 <= List.length parts2)%nat
  /\ forall k : nat, In k [0; 1; 2; 4; 5]%nat ->
       nth k parts1 EmptyString = nth k parts2 EmptyString.

(** The ways the age checks of a record with a date raise [ValueError]:
    [int(last_changed)] fails, or [fromtimestamp] rejects the day count, or
    the date converts and [int(max_age)] fails on a non-empty [max_age]. *)
Definition age_ValueError (E : env) (r : credential) : Prop :=
  Py.int_parse (int_max_str_digits E) (last_changed r) = None
  \/ exists n : Z,
      Py.int_parse (int_max_str_digits E) (last_changed r) = Some n
      /\ (fromtimestamp E (n * 86400) = Raise ValueError
          \/ (exists t : Z, fromtimestamp E (n * 86400) = Ok t)
             /\ max_age r <> ""%string
             /\ Py.int_parse (int_max_str_digits E) (max_age r) = None).

(** ** Views used for the further properties *)

(** The checks of one record as a decision table, without the monad: what
    lines 40-66 come to for each way the fields can parse. *)
Definition findings_table (E : env) (now : Z) (r : credential)
  : result other_exn (list string) :=
  let found := password_findings (password_field r) in
  if Py.truthy (last_changed r) then
    match Py.int_parse (int_max_str_digits E) (last_changed r) with
    | None => Ok (found ++ [invalid_date])
    | Some n =>
        match fromtimestamp E (n * 86400) with
        | Raise ValueError => Ok (found ++ [invalid_date])
        | Raise (OtherException msg) => Raise msg
        | Ok t =>
            let days := Py.timedelta_days (now - t) in
            if Py.truthy (max_age r) then
              match Py.int_parse (int_max_str_digits E) (max_age r) with
              | None => Ok (found ++ [invalid_date])
              | Some m =>
                  Ok (found
                      ++ (if 0 <? m
                          then if m <? days
                               then [password_expired (days - m)] else []
                          else [no_expiry_set])
                      ++ today_part days)
              end
            else Ok (found ++ no_expiry_set :: today_part days)
        end
    end
  else Ok found.

(** The number of occurrences of a character in a string. *)
Fixpoint count_char (c : ascii) (s : string) : nat :=
  match s with
  | EmptyString => 0
  | String d s' => (if Ascii.eqb d c then 1 else 0) + count_char c s'
  end.

(** The password fields the first check flags. *)
Definition flagged_password (password_field : string) : Prop :=
  In password_field [""; "*"; "!"; "!!"; "x"]%string.

(** The two lines the per-line handler prints for a dropped line. *)
Definition dropped_line_prints (user msg : string) : list event :=
  [Print ("Error processing line for user: " ++ user);
   Print ("Error details: " ++ msg)].

(** The summary the run ends with after writing the report. *)
Definition summary_prints (output_path : string) (rows : nat) : list event :=
  [Print (String "010" "Analysis complete. Found "
          ++ Py.str_of_int (Z.of_nat rows)
          ++ " potential security issues.");
   Print ("Results written to " ++ output_path)].

(** An environment like [Linux.environment] in which no file can be
    created: opening for writing raises [FileNotFoundError]. *)
Definition no_output_env (lines : list string) : env :=
  {| geteuid := 0;
     now := fun _ => Linux.noon_20000;
     fromtimestamp := Linux.fromtimestamp_utc;
     int_max_str_digits := 4300;
     open_read := fun _ => Ok (lines, None);
     open_write := fun _ => Raise FileNotFoundError |}.

(** What the loop body prints for one line read at [now]: the skip
    diagnostic for a malformed line, the two lines of the per-line handler
    for a line whose checks raise, nothing for a line read to the end. *)
Definition line_diagnostics (E : env) (now : Z) (line : string) : list string :=
  match record_of_line line with
  | None => [("Skipping malformed line: " ++ Py.strip line)%string]
  | Some r =>
      match findings E now r with
      | Ok _ => []
      | Raise msg =>
          [("Error processing line for user: " ++ username r)%string;
           ("Error details: " ++ msg)%string]
      end
  end.

(** The diagnostics of the lines read, in order; [i] is the number of the
    first line. *)
Fixpoint diagnostics (E : env) (i : nat) (lines : list string) : list string :=
  match lines with
  | [] => []
  | line :: rest => line_diagnostics E (now E i) line ++ diagnostics E (S i) rest
  end.

(** An environment in which reading the input breaks off after [lines]
    with a decoding error. *)
Definition broken_read_env (lines : list string) : env :=
  {| geteuid := 0;
     now := fun _ => Linux.noon_20000;
     fromtimestamp := Linux.fromtimestamp_utc;
     int_max_str_digits := 4300;
     open_read := fun _ =>
       Ok (lines,
           Some (UnexpectedError
                   "'utf-8' codec can't decode byte 0xff in position 0: invalid start byte"));
     open_write := fun _ => Ok tt |}.

(** A locked account whose day count is beyond the platform's [time_t]. *)
Definition eve_line : string :=
  "eve:*:999999999999999999999999999999:0:90:7:::".

(** * Properties *)

(** ** The built-ins on sample inputs *)

Example strip_sample :
  Py.strip (String "009" " bob:x:19900:0:90:7:::" ++ String "013" (String "010" ""))
  = "bob:x:19900:0:90:7:::"%string.
Proof. reflexivity. Qed.

Example split_sample :
  Py.split ":" "bob:x::0" = ["bob"; "x"; ""; "0"]%string
  /\ Py.split ":" "" = [""%string].
Proof. split; reflexivity. Qed.

Example join_sample :
  Py.join "; " [no_password_set; no_expiry_set]
  = "No password set; No password expiry set"%string.
Proof. reflexivity. Qed.

Example int_sample :
  map (Py.int_parse 4300)
    [" 12 "; "+5"; "-0"; "1_000"; "007"; ""; " "; "_1"; "1_"; "1__0"; "+ 5";
     "1 2"; "--5"; "1.0"; "0x10"; String "028" "5"]%string
  = [Some 12; Some 5; Some 0; Some 1000; Some 7; None; None; None; None; None;
     None; None; None; None; None; None].
Proof. reflexivity. Qed.

Example fromtimestamp_sample :
  map Linux.fromtimestamp_utc
    [0; 253402300799; 253402300800; -62135510400; -62135510401;
     67768036191676800; 2 ^ 63]
  = [Ok 0; Ok 253402300799000000; Raise ValueError; Ok (-62135510400000000);
     Raise ValueError;
     Raise (OtherException "[Errno 75] Value too large for defined data type");
     Raise (OtherException "timestamp out of range for platform time_t")].
Proof. reflexivity. Qed.

Example timedelta_days_sample :
  map Py.timedelta_days [-1; -86400000000; -86400000001; 86399999999]
  = [-1; -1; -2; 0].
Proof. reflexivity. Qed.

(** ** The model run on the specification's scenarios *)

Example scenario_A :
  findings Linux.root_env Linux.noon_20000 (Linux.entry "*" "18000" "99999")
  = Ok ["No password set"%string].
Proof. vm_compute. reflexivity. Qed.

Example scenario_B :
  findings Linux.root_env Linux.noon_20000 (Linux.entry "x" "19900" "90")
  = Ok ["Password stored in /etc/shadow"; "Password expired 10 days ago"]%string.
Proof. vm_compute. reflexivity. Qed.

Example scenario_C :
  record_of_line "carol:x:19000:0" = None.
Proof. reflexivity. Qed.

(** A whole run as root: a flagged line, a malformed line, a clean line and
    a line the per-line handler drops. *)
Example run_sample :
  analyze_shadow_file
    (Linux.environment 0 Linux.noon_20000 "/etc/shadow"
       ["bob:x:19900:0:90:7:::"; "carol:x:19000:0";
        "dan:$6$hash:19990:0:90:7:::";
        "eve:*:999999999999999999999999999999:0:90:7:::"])
    "/etc/shadow" "shadow_analysis.csv"
  = [Print "Attempting to read shadow file...";
     OpenRead "/etc/shadow";
     Print "Skipping malformed line: carol:x:19000:0";
     Print "Error processing line for user: eve";
     Print "Error details: timestamp out of range for platform time_t";
     OpenWrite "shadow_analysis.csv";
     WriteRow "shadow_analysis.csv" fieldnames;
     WriteRow "shadow_analysis.csv"
       ["bob"; "Password stored in /etc/shadow; Password expired 10 days ago";
        "19900"; "90"; "7"];
     Print (String "010" "Analysis complete. Found 1 potential security issues.");
     Print "Results written to shadow_analysis.csv"]%string.
Proof. vm_compute. reflexivity. Qed.

(** ** Strings *)

Lemma length_append (s t : string) :
  String.length (s ++ t) = (String.length s + String.length t)%nat.
Proof. induction s as [|c s IH]; simpl; [reflexivity | now rewrite IH]. Qed.

(** Appending the same suffix to two strings gives equal strings only when
    the two are equal. *)
Lemma append_cancel_r (t s1 s2 : string) :
  (s1 ++ t)%string = (s2 ++ t)%string -> s1 = s2.
Proof.
  revert s2; induction s1 as [|c s1 IH]; intros [|d s2] H; simpl in H.
  - reflexivity.
  - apply (f_equal String.length) in H; simpl in H.
    rewrite length_append in H; lia.
  - apply (f_equal String.length) in H; simpl in H.
    rewrite length_append in H; lia.
  - injection H as -> H. now rewrite (IH _ H).
Qed.

Lemma str_of_int_inj (a b : Z) : Py.str_of_int a = Py.str_of_int b -> a = b.
Proof.
  unfold Py.str_of_int; intros H.
  apply DecimalZ.to_int_inj.
  assert (Some (Z.to_int a) = Some (Z.to_int b)) as [= ->]; [|reflexivity].
  now rewrite <- !NilEmpty.isi, H.
Qed.

Lemma truthy_nonempty (s : string) : s <> ""%string -> Py.truthy s = true.
Proof. destruct s; [congruence | reflexivity]. Qed.

Lemma int_parse_empty (limit : N) : Py.int_parse limit "" = None.
Proof. reflexivity. Qed.

(** ** The texts of the findings are pairwise distinct *)

Lemma password_expired_inj (a b : Z) :
  password_expired a = password_expired b -> a = b.
Proof.
  unfold password_expired; cbn [append]; intros H.
  injection H as H.
  now apply str_of_int_inj, (append_cancel_r " days ago").
Qed.

Lemma password_expired_fresh (k : Z) :
  ~ In (password_expired k)
      [no_password_set; stored_in_shadow; no_expiry_set; changed_today; invalid_date].
Proof.
  unfold password_expired; cbn [append In].
  intros [H|[H|[H|[H|[H|[]]]]]]; discriminate H.
Qed.

(** ** The password-presence check *)

Lemma password_findings_cases (pw : string) :
  password_findings pw = [no_password_set]
  \/ password_findings pw = [stored_in_shadow]
  \/ password_findings pw = [].
Proof.
  unfold password_findings, password_check.
  destruct (Py.str_in pw _); [now left|].
  destruct (String.eqb pw "x"); [right; now left | right; now right].
Qed.

Lemma password_check_run (X : Type) (pw : string) (issues : list string) :
  password_check (X := X) pw issues = (Ok tt, issues ++ password_findings pw).
Proof.
  unfold password_findings, password_check.
  destruct (Py.str_in pw _); [reflexivity|].
  destruct (String.eqb pw "x"); [reflexivity|].
  unfold ret; simpl; now rewrite app_nil_r.
Qed.

Lemma password_findings_not_age (pw f : string) :
  In f (password_findings pw) -> ~ age_finding f.
Proof.
  intros Hin [H|[H|[H|[k H]]]]; subst f;
    destruct (password_findings_cases pw) as [C|[C|C]]; rewrite C in Hin;
    simpl in Hin; try tauto;
    try (destruct Hin as [Hin|[]]; try discriminate Hin;
         apply (password_expired_fresh k); rewrite <- Hin; simpl; tauto).
Qed.

(** ** Running the checks of one record *)

(** The record's findings once the password check is through. *)
Lemma findings_after_password_check (E : env) (now : Z) (r : credential) :
  findings E now r =
  if Py.truthy (last_changed r) then
    match try_except_ValueError
            (age_checks E now (last_changed r) (max_age r))
            (append invalid_date) (password_findings (password_field r)) with
    | (Ok _, issues) => Ok issues
    | (Raise msg, _) => Raise msg
    end
  else Ok (password_findings (password_field r)).
Proof.
  unfold findings, evaluate, bind at 1.
  rewrite password_check_run; simpl.
  destruct (Py.truthy (last_changed r)); reflexivity.
Qed.

(** ** Computations that only append findings of a given kind *)

Lemma appends_ret {X A : Type} (P : string -> Prop) (a : A) :
  appends P (ret (E := X) a).
Proof. intros issues; exists []; simpl; now rewrite app_nil_r. Qed.

Lemma appends_lift {X A : Type} (P : string -> Prop) (x : result X A) :
  appends P (lift x).
Proof. intros issues; exists []; simpl; now rewrite app_nil_r. Qed.

Lemma appends_append {X : Type} (P : string -> Prop) (f : string) :
  P f -> appends P (append (E := X) f).
Proof. intros H issues; exists [f]; simpl; auto. Qed.

Lemma appends_bind {X A B : Type} (P : string -> Prop) (m : M X A) (k : A -> M X B) :
  appends P m -> (forall a, appends P (k a)) -> appends P (bind m k).
Proof.
  intros Hm Hk issues; unfold bind.
  destruct (Hm issues) as (r1 & E1 & F1).
  destruct (m issues) as [[a|e] issues1]; simpl in E1; subst issues1.
  - destruct (Hk a (issues ++ r1)) as (r2 & E2 & F2).
    exists (r1 ++ r2); rewrite E2, app_assoc; split; [reflexivity|].
    now apply Forall_app.
  - now exists r1.
Qed.

Lemma appends_try {A : Type} (P : string -> Prop) (m : M exn A) (h : M other_exn A) :
  appends P m -> appends P h -> appends P (try_except_ValueError m h).
Proof.
  intros Hm Hh issues; unfold try_except_ValueError.
  destruct (Hm issues) as (r1 & E1 & F1).
  destruct (m issues) as [[a|[|msg]] issues1]; simpl in E1; subst issues1.
  - now exists r1.
  - destruct (Hh (issues ++ r1)) as (r2 & E2 & F2).
    exists (r1 ++ r2); rewrite E2, app_assoc; split; [reflexivity|].
    now apply Forall_app.
  - now exists r1.
Qed.

Lemma appends_if {X A : Type} (P : string -> Prop) (b : bool) (m1 m2 : M X A) :
  appends P m1 -> appends P m2 -> appends P (if b then m1 else m2).
Proof. now destruct b. Qed.

Lemma age_finding_fixed :
  age_finding no_expiry_set /\ age_finding changed_today /\ age_finding invalid_date.
Proof. unfold age_finding; tauto. Qed.

Lemma age_finding_expired (n : Z) : age_finding (password_expired n).
Proof. unfold age_finding; eauto. Qed.

Create HintDb appends.

#[local] Hint Resolve appends_ret appends_lift appends_append appends_bind
  appends_try appends_if age_finding_expired : appends.

(** The age checks, guarded by their handler, append age findings only. *)
Lemma age_checks_append (E : env) (now : Z) (lc ma : string) :
  appends age_finding
    (try_except_ValueError (age_checks E now lc ma) (append invalid_date)).
Proof.
  destruct age_finding_fixed as (H1 & H2 & H3).
  unfold age_checks, days_since_change, int.
  apply appends_try; [|auto with appends].
  repeat (apply appends_bind; [|intros ?]); auto 7 with appends.
Qed.

(** C2: the password-presence check.  A password field among the empty
    string, [*], [!] and [!!] contributes "No password set"; the field [x]
    contributes "Password stored in /etc/shadow" and not "No password set";
    any other field contributes nothing.  The contribution is what the check
    appends to [issues], whatever the rest of the record is. *)
Theorem password_presence_rule (E : env) (now : Z) (r : credential) (issues : list string) :
  let pw := password_field r in
  (In pw [""; "*"; "!"; "!!"]%string -> password_findings pw = [no_password_set])
  /\ (pw = "x"%string ->
      password_findings pw = [stored_in_shadow]
      /\ ~ In no_password_set (password_findings pw))
  /\ (~ In pw [""; "*"; "!"; "!!"; "x"]%string -> password_findings pw = [])
  /\ password_check (X := other_exn) pw issues = (Ok tt, issues ++ password_findings pw)
  /\ exists rest,
      snd (evaluate E now r issues) = issues ++ password_findings pw ++ rest
      /\ Forall age_finding rest.
Proof.
  intros pw; split; [|split; [|split; [|split]]].
  - simpl; intros [H|[H|[H|[H|[]]]]]; rewrite <- H; reflexivity.
  - intros ->; split; [reflexivity|].
    simpl; intros [H|[]]; discriminate H.
  - intros H. unfold password_findings, password_check.
    destruct (Py.str_in pw _) eqn:Hin.
    + exfalso; apply H. unfold Py.str_in in Hin.
      apply existsb_exists in Hin as (x & Hx & Heq).
      apply String.eqb_eq in Heq; subst x.
      simpl in Hx |- *; tauto.
    + destruct (String.eqb pw "x") eqn:Hx; [|reflexivity].
      apply String.eqb_eq in Hx. exfalso; apply H; rewrite Hx; simpl; tauto.
  - apply password_check_run.
  - unfold evaluate, bind at 1. rewrite password_check_run. fold pw.
    destruct (Py.truthy (last_changed r)).
    + destruct (age_checks_append E now (last_changed r) (max_age r)
                  (issues ++ password_findings pw)) as (rest & Hrest & Hage).
      exists rest. now rewrite Hrest, app_assoc.
    + exists []. simpl. now rewrite app_nil_r.
Qed.

(** ** The age checks, case by case *)

Section AgeChecks.

Variable E : env.
Variables (now : Z) (r : credential).

Abbreviation pw := (password_field r).
Abbreviation parse := (Py.int_parse (int_max_str_digits E)).

Ltac enter :=
  rewrite findings_after_password_check;
  match goal with
  | H : last_changed r <> _ |- _ => rewrite (truthy_nonempty _ H)
  end;
  unfold try_except_ValueError, age_checks, days_since_change, int, lift, bind,
    ret, append, today_part.

Lemma findings_unparsed_date :
  last_changed r <> ""%string -> parse (last_changed r) = None ->
  findings E now r = Ok (password_findings pw ++ [invalid_date]).
Proof. intros Hne Hp; enter. now rewrite Hp. Qed.

Lemma findings_date_ValueError (n : Z) :
  last_changed r <> ""%string -> parse (last_changed r) = Some n ->
  fromtimestamp E (n * 86400) = Raise ValueError ->
  findings E now r = Ok (password_findings pw ++ [invalid_date]).
Proof. intros Hne Hp Ht; enter. now rewrite Hp, Ht. Qed.

Lemma findings_date_other_exception (n : Z) (msg : string) :
  last_changed r <> ""%string -> parse (last_changed r) = Some n ->
  fromtimestamp E (n * 86400) = Raise (OtherException msg) ->
  findings E now r = Raise msg.
Proof. intros Hne Hp Ht; enter. now rewrite Hp, Ht. Qed.

Section Dated.

Variables n t : Z.
Hypothesis date_set : last_changed r <> ""%string.
Hypothesis date_parsed : parse (last_changed r) = Some n.
Hypothesis date_converted : fromtimestamp E (n * 86400) = Ok t.

Abbreviation days := (Py.timedelta_days (now - t)).

Lemma findings_no_max_age :
  max_age r = ""%string ->
  findings E now r = Ok (password_findings pw ++ no_expiry_set :: today_part days).
Proof.
  intros Hm; enter.
  rewrite date_parsed, date_converted, Hm; simpl.
  destruct (days <? 1); simpl; now rewrite <- ?app_assoc.
Qed.

Lemma findings_max_age (m : Z) :
  parse (max_age r) = Some m ->
  findings E now r =
  Ok (password_findings pw
      ++ (if 0 <? m
          then if m <? days then [password_expired (days - m)] else []
          else [no_expiry_set])
      ++ today_part days).
Proof.
  intros Hm; enter.
  assert (Hne : max_age r <> ""%string).
  { intros Hempty; rewrite Hempty, int_parse_empty in Hm; discriminate. }
  rewrite date_parsed, date_converted, (truthy_nonempty _ Hne), Hm; simpl.
  destruct (0 <? m); simpl; rewrite ?Hm; simpl;
    [destruct (m <? days); simpl; rewrite ?Hm; simpl|];
    destruct (days <? 1); simpl; rewrite <- ?app_assoc, ?app_nil_r; reflexivity.
Qed.

Lemma findings_unparsed_max_age :
  max_age r <> ""%string -> parse (max_age r) = None ->
  findings E now r = Ok (password_findings pw ++ [invalid_date]).
Proof.
  intros Hne Hm; enter.
  now rewrite date_parsed, date_converted, (truthy_nonempty _ Hne), Hm.
Qed.

End Dated.

End AgeChecks.

Lemma invalid_date_not_password_finding (pw : string) :
  ~ In invalid_date (password_findings pw).
Proof.
  intros H; apply (password_findings_not_age pw invalid_date H).
  unfold age_finding; tauto.
Qed.

Lemma In_today_part (f : string) (days : Z) :
  In f (today_part days) -> f = changed_today /\ days < 1.
Proof.
  unfold today_part; destruct (days <? 1) eqn:Hd; simpl; [|tauto].
  intros [<-|[]]; split; [reflexivity | now apply Z.ltb_lt].
Qed.

(** C1, amended: the expiry check.  For a record whose [last_changed] is
    non-empty, parses as an integer and converts to a datetime, with
    [days] the age of the password: when [max_age] is non-empty and parses
    to an integer above 0, "Password expired N days ago" is among the
    findings if and only if [days > max_age], with [N = days - max_age];
    when [max_age] is empty or parses to an integer at most 0, the finding
    "No password expiry set" is appended. *)
Theorem expiry_rule (E : env) (now : Z) (r : credential) (n t : Z) :
  last_changed r <> ""%string ->
  Py.int_parse (int_max_str_digits E) (last_changed r) = Some n ->
  fromtimestamp E (n * 86400) = Ok t ->
  (forall m : Z,
      max_age r <> ""%string ->
      Py.int_parse (int_max_str_digits E) (max_age r) = Some m ->
      0 < m ->
      findings E now r
      = Ok (password_findings (password_field r)
            ++ (if m <? Py.timedelta_days (now - t)
                then [password_expired (Py.timedelta_days (now - t) - m)]
                else [])
            ++ today_part (Py.timedelta_days (now - t)))
      /\ forall (k : Z) (fs : list string),
          findings E now r = Ok fs ->
          (In (password_expired k) fs
           <-> m < Py.timedelta_days (now - t)
               /\ k = Py.timedelta_days (now - t) - m))
  /\ (max_age r = ""%string
      \/ (exists m : Z,
            Py.int_parse (int_max_str_digits E) (max_age r) = Some m /\ m <= 0) ->
      findings E now r
      = Ok (password_findings (password_field r)
            ++ no_expiry_set :: today_part (Py.timedelta_days (now - t)))).
Proof.
  intros Hne Hn Ht; split.
  - intros m _ Hm Hpos.
    assert (Hf := findings_max_age E now r n t Hne Hn Ht m Hm).
    apply Z.ltb_lt in Hpos; rewrite Hpos in Hf.
    split; [exact Hf|].
    intros k fs Hfs; rewrite Hf in Hfs; injection Hfs as <-.
    rewrite !in_app_iff; split.
    + intros [H|[H|H]].
      * exfalso; apply (password_findings_not_age _ _ H), age_finding_expired.
      * destruct (m <? _) eqn:Hlt; [|destruct H].
        destruct H as [H|[]]. apply password_expired_inj in H.
        apply Z.ltb_lt in Hlt; now split.
      * apply In_today_part in H as [H _].
        exfalso; apply (password_expired_fresh k); rewrite H; simpl; tauto.
    + intros [Hlt ->]. apply Z.ltb_lt in Hlt; rewrite Hlt.
      right; left; now left.
  - intros [Hm|(m & Hm & Hle)].
    + now apply findings_no_max_age with (n := n).
    + rewrite (findings_max_age E now r n t Hne Hn Ht m Hm).
      apply Z.ltb_ge in Hle; now rewrite Hle.
Qed.

(** The expiry check run on [bob], at noon of day 20000. *)
Lemma expiry_rule_witness :
  findings Linux.root_env Linux.noon_20000 Linux.bob
  = Ok [stored_in_shadow; password_expired 10].
Proof.
  destruct (expiry_rule Linux.root_env Linux.noon_20000 Linux.bob
              19900 (19900 * 86400 * 1000000)) as [H _];
    [discriminate | reflexivity | reflexivity |].
  destruct (H 90) as [Hf _]; [discriminate | reflexivity | lia |].
  exact Hf.
Defined.

(** C1 as first stated fails: [last_changed] is non-empty and an integer,
    [max_age] is empty, and yet "No password expiry set" is not appended,
    because the day count lies beyond what a datetime can hold. *)
Lemma expiry_rule_needs_datetime :
  Linux.far_future <> ""%string
  /\ Py.int_parse 4300 Linux.far_future = Some 99999999
  /\ findings Linux.root_env Linux.noon_20000 (Linux.entry "$6$hash" Linux.far_future "")
     = Ok [invalid_date]
  /\ ~ In no_expiry_set [invalid_date].
Proof.
  split; [discriminate|]. split; [reflexivity|]. split; [reflexivity|].
  simpl; intros [H|[]]; discriminate H.
Qed.

(** C3, amended: the recency check.  For a record whose [last_changed]
    parses as an integer and converts to a datetime, and whose [max_age] is
    empty or parses as an integer: whenever the password is less than one
    day old, "Password changed today - verify if authorized" is among the
    findings, whatever else was found. *)
Theorem changed_today_rule (E : env) (now : Z) (r : credential) (n t : Z) :
  Py.int_parse (int_max_str_digits E) (last_changed r) = Some n ->
  fromtimestamp E (n * 86400) = Ok t ->
  max_age r = ""%string
  \/ (exists m : Z, Py.int_parse (int_max_str_digits E) (max_age r) = Some m) ->
  Py.timedelta_days (now - t) < 1 ->
  exists fs : list string, findings E now r = Ok fs /\ In changed_today fs.
Proof.
  intros Hn Ht Hmax Hdays.
  assert (Hne : last_changed r <> ""%string).
  { intros Hempty; rewrite Hempty, int_parse_empty in Hn; discriminate. }
  assert (Htoday : today_part (Py.timedelta_days (now - t)) = [changed_today]).
  { unfold today_part. apply Z.ltb_lt in Hdays. now rewrite Hdays. }
  destruct Hmax as [Hm|(m & Hm)].
  - eexists; split; [now apply findings_no_max_age with (n := n) (t := t)|].
    rewrite Htoday, in_app_iff; simpl; tauto.
  - eexists; split; [now apply findings_max_age with (n := n) (t := t) (m := m)|].
    rewrite Htoday, !in_app_iff; simpl; tauto.
Qed.

(** The recency check run on a password changed on day 20000, at noon of
    that day. *)
Lemma changed_today_rule_witness :
  exists fs : list string,
    findings Linux.root_env Linux.noon_20000 (Linux.entry "x" "20000" "90") = Ok fs
    /\ In changed_today fs.
Proof.
  apply (changed_today_rule Linux.root_env Linux.noon_20000
           (Linux.entry "x" "20000" "90") 20000 (20000 * 86400 * 1000000)).
  - reflexivity.
  - reflexivity.
  - right; exists 90; reflexivity.
  - vm_compute; reflexivity.
Defined.

(** C3 as first stated fails: the date parses, the password is less than a
    day old, and the finding is missing because [max_age] is no number: the
    [ValueError] of [int(max_age)] leaves the [try] block before the recency
    check. *)
Lemma changed_today_depends_on_max_age :
  Py.int_parse 4300 (last_changed Linux.bad_max_age) = Some 20000
  /\ Linux.fromtimestamp_utc (20000 * 86400) = Ok (20000 * 86400 * 1000000)
  /\ Py.timedelta_days (Linux.noon_20000 - 20000 * 86400 * 1000000) < 1
  /\ findings Linux.root_env Linux.noon_20000 Linux.bad_max_age
     = Ok [stored_in_shadow; invalid_date]
  /\ ~ In changed_today [stored_in_shadow; invalid_date].
Proof.
  split; [reflexivity|]. split; [reflexivity|].
  split; [vm_compute; reflexivity|]. split; [reflexivity|].
  simpl; intros [H|[H|[]]]; discriminate H.
Qed.

(** C4, amended: the handler of the age checks.  For a record with a
    non-empty [last_changed], a [ValueError] in the age checks does not drop
    the record: its findings are those of the password check followed by
    "Invalid date format in password age field", and no other age check
    contributes.  This happens exactly when the age checks raise
    [ValueError]: when [last_changed] fails integer parsing, when its day
    count is outside the years a datetime holds, or when the date converts
    and a non-empty [max_age] fails integer parsing. *)
Theorem invalid_date_rule (E : env) (now : Z) (r : credential) :
  last_changed r <> ""%string ->
  (age_ValueError E r ->
   findings E now r = Ok (password_findings (password_field r) ++ [invalid_date]))
  /\ (forall fs : list string,
        findings E now r = Ok fs -> In invalid_date fs -> age_ValueError E r).
Proof.
  intros Hne; split.
  - intros [Hn|(n & Hn & [Ht|((t & Ht) & Hm & Hp)])].
    + now apply findings_unparsed_date.
    + now apply findings_date_ValueError with (n := n).
    + now apply findings_unparsed_max_age with (n := n) (t := t).
  - intros fs Hfs Hin. unfold age_ValueError.
    destruct (Py.int_parse (int_max_str_digits E) (last_changed r)) as [n|] eqn:Hn;
      [right; exists n; split; [reflexivity|] | now left].
    destruct (fromtimestamp E (n * 86400)) as [t|[|msg]] eqn:Ht.
    + right; split; [now exists t|].
      destruct (Py.int_parse (int_max_str_digits E) (max_age r)) as [m|] eqn:Hm.
      * exfalso.
        rewrite (findings_max_age E now r n t Hne Hn Ht m Hm) in Hfs.
        injection Hfs as <-. rewrite !in_app_iff in Hin.
        destruct Hin as [H|[H|H]].
        -- now apply invalid_date_not_password_finding in H.
        -- destruct (0 <? m); [destruct (m <? _)|]; simpl in H;
             try (destruct H as [H|[]]); try discriminate H; contradiction.
        -- apply In_today_part in H as [H _]; discriminate H.
      * split; [|reflexivity]. intros Hempty. exfalso.
        rewrite (findings_no_max_age E now r n t Hne Hn Ht Hempty) in Hfs.
        injection Hfs as <-. rewrite in_app_iff in Hin.
        destruct Hin as [H|[H|H]].
        -- now apply invalid_date_not_password_finding in H.
        -- discriminate H.
        -- apply In_today_part in H as [H _]; discriminate H.
    + now left.
    + rewrite (findings_date_other_exception E now r n msg Hne Hn Ht) in Hfs.
      discriminate Hfs.
Qed.

(** The handler run on a record whose [max_age] is no number. *)
Lemma invalid_date_rule_witness :
  findings Linux.root_env Linux.noon_20000 Linux.bad_max_age
  = Ok (password_findings (password_field Linux.bad_max_age) ++ [invalid_date]).
Proof.
  apply (invalid_date_rule Linux.root_env Linux.noon_20000 Linux.bad_max_age).
  - discriminate.
  - right; exists 20000; split; [reflexivity|].
    right; split; [eexists; reflexivity|]. split; [discriminate | reflexivity].
Defined.

(** C4 as first stated fails in its "exactly when": both age fields parse
    as integers, and "Invalid date format in password age field" is appended
    all the same, because [fromtimestamp] raises the [ValueError]. *)
Lemma invalid_date_without_parse_failure :
  Py.int_parse 4300 Linux.far_future = Some 99999999
  /\ Py.int_parse 4300 "90" = Some 90
  /\ Linux.fromtimestamp_utc (99999999 * 86400) = Raise ValueError
  /\ findings Linux.root_env Linux.noon_20000 (Linux.entry "x" Linux.far_future "90")
     = Ok [stored_in_shadow; invalid_date]
  /\ In invalid_date [stored_in_shadow; invalid_date].
Proof.
  repeat (split; [reflexivity|]). simpl; tauto.
Qed.

(** C5: a record whose [last_changed] is the empty string gets no finding
    from the age checks, whatever [max_age] and [warning_period] hold: its
    findings are those of the password check alone, none of which is an age
    finding. *)
Theorem no_date_no_age_findings (E : env) (now : Z) (r : credential) :
  last_changed r = ""%string ->
  findings E now r = Ok (password_findings (password_field r))
  /\ forall f : string,
      In f (password_findings (password_field r)) -> ~ age_finding f.
Proof.
  intros Hempty; split.
  - rewrite findings_after_password_check, Hempty; reflexivity.
  - intros f; apply password_findings_not_age.
Qed.

(** A locked account without a date, its [max_age] no number. *)
Lemma no_date_no_age_findings_witness :
  findings Linux.root_env Linux.noon_20000 (Linux.entry "!" "" "abc")
  = Ok (password_findings "!")
  /\ forall f : string, In f (password_findings "!") -> ~ age_finding f.
Proof.
  apply (no_date_no_age_findings Linux.root_env Linux.noon_20000
           (Linux.entry "!" "" "abc")).
  reflexivity.
Defined.

(** C6, amended: the age in days.  For a [last_changed] that parses and
    converts to the datetime [t], [days_since_change] is the whole-day count
    of [now - t] rounded towards minus infinity: it agrees with truncation
    when [now] is not before [t], is 0 for a difference from 0 up to one
    day, and is -1 for a negative difference down to one day. *)
Theorem days_since_change_floor (E : env) (now : Z) (lc : string) (n t : Z)
    (issues : list string) :
  Py.int_parse (int_max_str_digits E) lc = Some n ->
  fromtimestamp E (n * 86400) = Ok t ->
  exists d : Z,
    days_since_change E now lc issues = (Ok d, issues)
    /\ d * Py.day_us <= now - t < (d + 1) * Py.day_us
    /\ (0 <= now - t -> d = Z.quot (now - t) Py.day_us)
    /\ (0 <= now - t < Py.day_us -> d = 0)
    /\ (- Py.day_us <= now - t < 0 -> d = -1).
Proof.
  intros Hn Ht. exists (Py.timedelta_days (now - t)).
  split.
  { unfold days_since_change, int, lift, bind, ret. now rewrite Hn, Ht. }
  unfold Py.timedelta_days.
  assert (Hday : 0 < Py.day_us) by reflexivity.
  pose proof (Z.div_mod (now - t) Py.day_us) as Hdm.
  pose proof (Z.mod_pos_bound (now - t) Py.day_us Hday) as Hmod.
  set (x := now - t) in *. set (q := x / Py.day_us) in *.
  assert (Hx : x = Py.day_us * q + x mod Py.day_us) by (apply Hdm; lia).
  clear Hdm. set (m := x mod Py.day_us) in *.
  change Py.day_us with 86400000000 in *.
  split; [lia|]. split; [|split].
  - intros Hpos. subst q. symmetry. apply Z.quot_div_nonneg; lia.
  - intros Hsmall. lia.
  - intros Hneg. lia.
Qed.

(** The age of a password changed on day 19900, at noon of day 20000. *)
Lemma days_since_change_floor_witness :
  exists d : Z,
    days_since_change Linux.root_env Linux.noon_20000 "19900" [] = (Ok d, [])
    /\ d * Py.day_us
       <= Linux.noon_20000 - 19900 * 86400 * 1000000
       < (d + 1) * Py.day_us
    /\ (0 <= Linux.noon_20000 - 19900 * 86400 * 1000000 ->
        d = Z.quot (Linux.noon_20000 - 19900 * 86400 * 1000000) Py.day_us)
    /\ (0 <= Linux.noon_20000 - 19900 * 86400 * 1000000 < Py.day_us -> d = 0)
    /\ (- Py.day_us <= Linux.noon_20000 - 19900 * 86400 * 1000000 < 0 -> d = -1).
Proof.
  apply (days_since_change_floor Linux.root_env Linux.noon_20000 "19900"
           19900 (19900 * 86400 * 1000000) []); reflexivity.
Defined.

(** C6 as first stated fails: one microsecond before the moment of the
    change the difference lies strictly between minus one day and one day,
    truncation gives 0, and [days_since_change] is -1. *)
Lemma days_since_change_not_truncated :
  - Py.day_us < Linux.before_midnight - 20000 * 86400 * 1000000 < Py.day_us
  /\ Z.quot (Linux.before_midnight - 20000 * 86400 * 1000000) Py.day_us = 0
  /\ days_since_change Linux.root_env Linux.before_midnight "20000" []
     = (Ok (-1), []).
Proof.
  split; [split; reflexivity|]. split; reflexivity.
Qed.

(** ** The loop *)

Lemma written_prints (path : string) (out : list string) :
  written path (map Print out) = [].
Proof. induction out as [|s out IH]; [reflexivity | exact IH]. Qed.

(** One pass of the loop body: the row the line contributes is appended to
    [security_issues], and the trace grows by prints only. *)
Lemma process_line_spec (E : env) (now : Z) (line : string) (st : loop_state) :
  security_issues (process_line E now line st)
  = security_issues st ++ row_of_line E now line
  /\ exists out : list string,
      trace (process_line E now line st) = trace st ++ map Print out.
Proof.
  unfold process_line, row_of_line, record_of_line, findings.
  destruct (List.length (Py.split ":" (Py.strip line)) <? 9)%nat.
  - simpl; rewrite app_nil_r; split; [reflexivity|]. now eexists [_].
  - destruct (evaluate E now _ []) as [[u|msg] issues].
    + destruct issues as [|f fs]; simpl.
      * rewrite app_nil_r; split; [reflexivity|]. exists []; simpl.
        now rewrite app_nil_r.
      * split; [reflexivity|]. exists []; simpl. now rewrite app_nil_r.
    + simpl; rewrite app_nil_r; split; [reflexivity|].
      eexists [_; _]; simpl. now rewrite <- app_assoc.
Qed.

Lemma loop_spec (E : env) (lines : list string) :
  forall (i : nat) (st : loop_state),
    security_issues (loop E i lines st)
    = security_issues st ++ report_rows E i lines
    /\ exists out : list string,
        trace (loop E i lines st) = trace st ++ map Print out.
Proof.
  induction lines as [|line rest IH]; intros i st; simpl.
  - rewrite app_nil_r; split; [reflexivity|]. exists []; simpl.
    now rewrite app_nil_r.
  - destruct (IH (S i) (process_line E (now E i) line st)) as (Hrows & out2 & Hout2).
    destruct (process_line_spec E (now E i) line st) as (Hrow & out1 & Hout1).
    rewrite Hrows, Hrow, Hout2, Hout1, <- !app_assoc, <- map_app.
    split; [reflexivity | now exists (out1 ++ out2)].
Qed.

Lemma loop_app (E : env) (pre post : list string) :
  forall (i : nat) (st : loop_state),
    loop E i (pre ++ post) st
    = loop E (i + List.length pre) post (loop E i pre st).
Proof.
  induction pre as [|line pre IH]; intros i st; simpl.
  - now rewrite Nat.add_0_r.
  - now rewrite IH, Nat.add_succ_r.
Qed.

(** C7: a line with fewer than 9 colon-separated fields after stripping
    adds no row to the report and leaves the count of rows as it was; the
    diagnostic "Skipping malformed line: ..." with the stripped line is
    printed; and the loop goes on with the next line, wherever in the input
    the line stands. *)
Theorem malformed_line_skipped (E : env) (clock : Z) (line : string) (st : loop_state) :
  (List.length (Py.split ":" (Py.strip line)) < 9)%nat ->
  row_of_line E clock line = []
  /\ security_issues (process_line E clock line st) = security_issues st
  /\ trace (process_line E clock line st)
     = trace st ++ [Print ("Skipping malformed line: " ++ Py.strip line)]
  /\ forall (i : nat) (pre post : list string) (st0 : loop_state),
      loop E i (pre ++ line :: post) st0
      = loop E (S (i + List.length pre)) post
          (print ("Skipping malformed line: " ++ Py.strip line) (loop E i pre st0))
      /\ report_rows E i (line :: post) = report_rows E (S i) post.
Proof.
  intros Hshort.
  assert (Hlt : (List.length (Py.split ":" (Py.strip line)) <? 9)%nat = true)
    by now apply Nat.ltb_lt.
  assert (Hbody : forall c s,
             process_line E c line s
             = print ("Skipping malformed line: " ++ Py.strip line) s).
  { intros c s; unfold process_line; now rewrite Hlt. }
  assert (Hrow : forall c, row_of_line E c line = []).
  { intros c; unfold row_of_line, record_of_line; now rewrite Hlt. }
  split; [apply Hrow|]. rewrite Hbody. split; [reflexivity|].
  split; [reflexivity|].
  intros i pre post st0; split.
  - rewrite loop_app; simpl. now rewrite Hbody.
  - simpl. now rewrite Hrow.
Qed.

(** A line of four fields, between two other lines. *)
Lemma malformed_line_skipped_witness :
  row_of_line Linux.root_env Linux.noon_20000 "carol:x:19000:0" = []
  /\ security_issues
       (process_line Linux.root_env Linux.noon_20000 "carol:x:19000:0"
          {| security_issues := []; trace := [] |}) = []
  /\ trace
       (process_line Linux.root_env Linux.noon_20000 "carol:x:19000:0"
          {| security_issues := []; trace := [] |})
     = [Print "Skipping malformed line: carol:x:19000:0"].
Proof.
  destruct (malformed_line_skipped Linux.root_env Linux.noon_20000
              "carol:x:19000:0" {| security_issues := []; trace := [] |})
    as (H1 & H2 & H3 & _).
  - vm_compute; lia.
  - split; [exact H1|]. split; [exact H2 | exact H3].
Defined.

(** ** The report *)

Lemma written_rows (path : string) (rows : list issue_row) :
  written path (map (fun row => WriteRow path (cells row)) rows) = map cells rows.
Proof.
  induction rows as [|row rows IH]; [reflexivity|].
  unfold written in *; simpl. now rewrite String.eqb_refl, IH.
Qed.

(** A line contributes a row exactly when it has a record whose checks end
    with at least one finding; the row is made of that record and of those
    findings. *)
Lemma In_row_of_line (E : env) (now : Z) (line : string) (row : issue_row) :
  In row (row_of_line E now line)
  <-> exists (r : credential) (fs : list string),
        record_of_line line = Some r /\ findings E now r = Ok fs
        /\ fs <> [] /\ row = make_row r fs.
Proof.
  unfold row_of_line; split.
  - destruct (record_of_line line) as [r|]; [|intros []].
    destruct (findings E now r) as [[|f fs]|msg] eqn:Hf;
      [intros [] | | intros []].
    intros [<-|[]]. exists r, (f :: fs).
    split; [reflexivity|]. split; [exact Hf|]. split; [discriminate | reflexivity].
  - intros (r & fs & -> & -> & Hne & ->).
    destruct fs as [|f fs]; [congruence | now left].
Qed.

Lemma In_report_rows (E : env) (lines : list string) :
  forall (k : nat) (row : issue_row),
    In row (report_rows E k lines)
    <-> exists (i : nat) (line : string),
          nth_error lines i = Some line
          /\ In row (row_of_line E (now E (k + i)) line).
Proof.
  induction lines as [|line rest IH]; intros k row; simpl.
  - split; [intros [] | intros ([|i] & l & H & _); discriminate H].
  - rewrite in_app_iff, IH; split.
    + intros [H|(i & l & Hl & H)].
      * exists 0%nat, line. now rewrite Nat.add_0_r.
      * exists (S i), l. now rewrite Nat.add_succ_r.
    + intros ([|i] & l & Hl & H); simpl in Hl.
      * injection Hl as <-. rewrite Nat.add_0_r in H. now left.
      * right. exists i, l. now rewrite Nat.add_succ_r in H.
Qed.

(** C8, amended: the report.  In a run that reaches the output file, what
    is written to it is the header row [username, issues, last_changed,
    max_age, warning_period] followed by the rows of [report_rows]: going
    through the input in order, exactly one row for each record whose
    checks completed with at least one finding, its [issues] column those
    findings joined by "; ", and no row for any other line: none for a
    record without findings, and none for a record whose checks raised an
    exception for the per-line handler, whatever it had accumulated. *)
Theorem report_contents (E : env) (input_path output_path : string)
    (lines : list string) (u : unit) :
  geteuid E = 0 ->
  open_read E input_path = Ok (lines, None) ->
  open_write E output_path = Ok u ->
  written output_path (analyze_shadow_file E input_path output_path)
  = fieldnames :: map cells (report_rows E 0 lines)
  /\ (forall row : issue_row,
        In row (report_rows E 0 lines)
        <-> exists (i : nat) (line : string) (r : credential) (fs : list string),
              nth_error lines i = Some line
              /\ record_of_line line = Some r
              /\ findings E (now E i) r = Ok fs
              /\ fs <> []
              /\ row = make_row r fs)
  /\ (forall (r : credential) (fs : list string),
        row_issues (make_row r fs) = Py.join "; " fs).
Proof.
  intros Heuid Hread Hwrite. split; [|split].
  - unfold analyze_shadow_file. rewrite Heuid, Hread, Hwrite; simpl.
    match goal with
    | |- context [loop E 0 lines ?s] =>
        destruct (loop_spec E lines 0 s) as (Hrows & out & Hout)
    end.
    rewrite Hout, Hrows; simpl.
    unfold write_report, written; simpl.
    rewrite flat_map_app. fold (written output_path (map Print out)).
    rewrite written_prints; simpl.
    rewrite String.eqb_refl; simpl. f_equal.
    rewrite flat_map_app; simpl. rewrite app_nil_r.
    apply written_rows.
  - intros row. rewrite In_report_rows. split.
    + intros (i & line & Hl & H). apply In_row_of_line in H as (r & fs & H).
      now exists i, line, r, fs.
    + intros (i & line & r & fs & Hl & H). exists i, line. split; [exact Hl|].
      apply In_row_of_line. now exists r, fs.
  - reflexivity.
Qed.

(** A run over three lines: one flagged, one malformed, one clean. *)
Lemma report_contents_witness :
  written "shadow_analysis.csv"
    (analyze_shadow_file
       (Linux.environment 0 Linux.noon_20000 "/etc/shadow"
          ["bob:x:19900:0:90:7:::"; "carol:x:19000:0"; "dan:$6$hash:19990:0:90:7:::"])
       "/etc/shadow" "shadow_analysis.csv")
  = [ fieldnames;
      ["bob"; "Password stored in /etc/shadow; Password expired 10 days ago";
       "19900"; "90"; "7"] ]%string.
Proof.
  destruct (report_contents
              (Linux.environment 0 Linux.noon_20000 "/etc/shadow"
                 ["bob:x:19900:0:90:7:::"; "carol:x:19000:0";
                  "dan:$6$hash:19990:0:90:7:::"])
              "/etc/shadow" "shadow_analysis.csv"
              ["bob:x:19900:0:90:7:::"; "carol:x:19000:0";
               "dan:$6$hash:19990:0:90:7:::"] tt) as (H & _);
    [reflexivity | reflexivity | reflexivity |].
  exact H.
Defined.

(** C8 as first stated fails: the record of [eve_line] accumulates the
    finding "No password set" (line 44), then [datetime.fromtimestamp]
    raises [OverflowError], which the handler of the age checks does not
    catch; the per-line handler drops the line, and the report holds the
    header alone. *)
Lemma report_drops_record_with_finding :
  record_of_line eve_line
  = Some (fields (Py.split ":" (Py.strip eve_line)))
  /\ evaluate Linux.root_env Linux.noon_20000
       (fields (Py.split ":" (Py.strip eve_line))) []
     = (Raise "timestamp out of range for platform time_t"%string,
        [no_password_set])
  /\ written "shadow_analysis.csv"
       (analyze_shadow_file
          (Linux.environment 0 Linux.noon_20000 "/etc/shadow" [eve_line])
          "/etc/shadow" "shadow_analysis.csv")
     = [fieldnames].
Proof.
  split; [reflexivity|]. split; [reflexivity|]. vm_compute. reflexivity.
Qed.

(** C9: the access guard.  When the effective uid is not 0, the run prints
    the permission message and the two lines telling how to run the script
    with sudo, and does nothing else: the input is not opened for reading
    and nothing is opened or written for output. *)
Theorem unprivileged_run (E : env) (input_path output_path : string) :
  geteuid E <> 0 ->
  analyze_shadow_file E input_path output_path
  = [Print "Permission error: This script must be run as root to access /etc/shadow";
     Print "Please run the script with sudo:";
     Print "sudo python3 shadow_analyzer.py"]
  /\ reads (analyze_shadow_file E input_path output_path) = []
  /\ writes (analyze_shadow_file E input_path output_path) = [].
Proof.
  intros Heuid. apply Z.eqb_neq in Heuid.
  unfold analyze_shadow_file; rewrite Heuid; simpl. repeat split.
Qed.

(** A run as uid 1000 over a readable file with a flagged account. *)
Lemma unprivileged_run_witness :
  reads (analyze_shadow_file
           (Linux.environment 1000 Linux.noon_20000 "/etc/shadow"
              ["bob:x:19900:0:90:7:::"])
           "/etc/shadow" "shadow_analysis.csv") = []
  /\ writes (analyze_shadow_file
               (Linux.environment 1000 Linux.noon_20000 "/etc/shadow"
                  ["bob:x:19900:0:90:7:::"])
               "/etc/shadow" "shadow_analysis.csv") = [].
Proof.
  apply (unprivileged_run
           (Linux.environment 1000 Linux.noon_20000 "/etc/shadow"
              ["bob:x:19900:0:90:7:::"])
           "/etc/shadow" "shadow_analysis.csv").
  discriminate.
Defined.

(** ** Fields that are read and never used *)

Section SameUsedFields.

Variable E : env.
Variables line1 line2 : string.
Hypothesis same : same_used_fields line1 line2.

Lemma same_used_fields_long :
  (List.length (Py.split ":" (Py.strip line1)) <? 9)%nat = false
  /\ (List.length (Py.split ":" (Py.strip line2)) <? 9)%nat = false
  /\ (0 <? List.length (Py.split ":" (Py.strip line1)))%nat = true
  /\ (0 <? List.length (Py.split ":" (Py.strip line2)))%nat = true.
Proof.
  destruct same as (H1 & H2 & _).
  repeat split; try (apply Nat.ltb_ge; lia); apply Nat.ltb_lt; lia.
Qed.

(** The checks read the password field, [last_changed] and [max_age] only. *)
Lemma same_used_fields_evaluate (clock : Z) :
  evaluate E clock (fields (Py.split ":" (Py.strip line1)))
  = evaluate E clock (fields (Py.split ":" (Py.strip line2))).
Proof.
  destruct same as (_ & _ & Hsame).
  unfold evaluate, fields; simpl.
  rewrite (Hsame 1%nat), (Hsame 2%nat), (Hsame 4%nat) by (simpl; tauto).
  reflexivity.
Qed.

(** A row is made of the user name, the findings, [last_changed], [max_age]
    and the warning period. *)
Lemma same_used_fields_make_row (issues : list string) :
  make_row (fields (Py.split ":" (Py.strip line1))) issues
  = make_row (fields (Py.split ":" (Py.strip line2))) issues.
Proof.
  destruct same as (_ & _ & Hsame).
  unfold make_row, fields; simpl.
  rewrite (Hsame 0%nat), (Hsame 2%nat), (Hsame 4%nat), (Hsame 5%nat)
    by (simpl; tauto).
  reflexivity.
Qed.

Lemma same_used_fields_process_line (clock : Z) (st : loop_state) :
  process_line E clock line1 st = process_line E clock line2 st.
Proof.
  destruct same_used_fields_long as (L1 & L2 & P1 & P2).
  unfold process_line.
  rewrite L1, L2, P1, P2, same_used_fields_evaluate.
  destruct same as (_ & _ & Hsame).
  rewrite (Hsame 0%nat) by (simpl; tauto).
  destruct (evaluate E clock _ []) as [[u|msg] issues]; [|reflexivity].
  now rewrite same_used_fields_make_row.
Qed.

End SameUsedFields.

(** C10: two lines with at least 9 fields each that agree on the fields 0,
    1, 2, 4 and 5 are treated alike, whatever field 3 ([min_age]) and the
    fields from 6 on hold: the same findings, the same row for the report,
    and the same effect of the loop body on the rows collected and on what
    is printed. *)
Theorem unused_fields_ignored (E : env) (clock : Z) (line1 line2 : string)
    (st : loop_state) :
  same_used_fields line1 line2 ->
  findings E clock (fields (Py.split ":" (Py.strip line1)))
  = findings E clock (fields (Py.split ":" (Py.strip line2)))
  /\ row_of_line E clock line1 = row_of_line E clock line2
  /\ process_line E clock line1 st = process_line E clock line2 st.
Proof.
  intros Hsame.
  assert (Hf : findings E clock (fields (Py.split ":" (Py.strip line1)))
               = findings E clock (fields (Py.split ":" (Py.strip line2)))).
  { unfold findings. now rewrite (same_used_fields_evaluate E line1 line2 Hsame). }
  split; [exact Hf|]. split.
  - destruct (same_used_fields_long line1 line2 Hsame) as (L1 & L2 & _).
    unfold row_of_line, record_of_line. rewrite L1, L2, Hf. clear Hf.
    destruct (findings E clock _) as [[|f fs]|msg]; try reflexivity.
    now rewrite (same_used_fields_make_row line1 line2 Hsame).
  - now apply same_used_fields_process_line.
Qed.

(** Two lines for the same account that differ in [min_age] and in what
    follows the warning period. *)
Lemma unused_fields_ignored_witness :
  row_of_line Linux.root_env Linux.noon_20000 "bob:x:19900:0:90:7:::"
  = row_of_line Linux.root_env Linux.noon_20000 "bob:x:19900:5:90:7:30:20100:flag:more".
Proof.
  destruct (unused_fields_ignored Linux.root_env Linux.noon_20000
              "bob:x:19900:0:90:7:::" "bob:x:19900:5:90:7:30:20100:flag:more"
              {| security_issues := []; trace := [] |}) as (_ & H & _).
  - unfold same_used_fields.
    split; [vm_compute; lia|]. split; [vm_compute; lia|].
    intros k [<-|[<-|[<-|[<-|[<-|[]]]]]]; reflexivity.
  - exact H.
Defined.

(** Whole inputs that agree line by line on the used fields go through the
    loop alike. *)
Lemma loop_same_used_fields (E : env) (lines1 lines2 : list string) :
  Forall2 same_used_fields lines1 lines2 ->
  forall (i : nat) (st : loop_state), loop E i lines1 st = loop E i lines2 st.
Proof.
  induction 1 as [|l1 l2 ls1 ls2 Hl _ IH]; intros i st; simpl; [reflexivity|].
  now rewrite (same_used_fields_process_line E l1 l2 Hl), IH.
Qed.

(** * Further properties of the function *)

(** ** The checks as a decision table *)

Lemma truthy_empty (s : string) : Py.truthy s = false -> s = ""%string.
Proof. destruct s; [reflexivity | discriminate]. Qed.

Lemma truthy_true (s : string) : Py.truthy s = true -> s <> ""%string.
Proof. destruct s; [discriminate | discriminate]. Qed.

Lemma findings_table_correct (E : env) (now : Z) (r : credential) :
  findings E now r = findings_table E now r.
Proof.
  unfold findings_table.
  destruct (Py.truthy (last_changed r)) eqn:Hlc.
  - apply truthy_true in Hlc.
    destruct (Py.int_parse _ (last_changed r)) as [n|] eqn:Hn;
      [|now apply findings_unparsed_date].
    destruct (fromtimestamp E (n * 86400)) as [t|[|msg]] eqn:Ht.
    + destruct (Py.truthy (max_age r)) eqn:Hma.
      * apply truthy_true in Hma.
        destruct (Py.int_parse _ (max_age r)) as [m|] eqn:Hm.
        -- now apply findings_max_age with (n := n).
        -- now apply findings_unparsed_max_age with (n := n) (t := t).
      * apply truthy_empty in Hma. now apply findings_no_max_age with (n := n).
    + now apply findings_date_ValueError with (n := n).
    + now apply findings_date_other_exception with (n := n).
  - rewrite findings_after_password_check, Hlc. reflexivity.
Qed.

(** Taking a completed record apart: its findings are those of the password
    check followed by one of the four outcomes of the age checks. *)
Lemma findings_cases (E : env) (now : Z) (r : credential) (fs : list string) :
  findings E now r = Ok fs ->
  exists age : list string,
    fs = password_findings (password_field r) ++ age
    /\ (age = [] /\ last_changed r = ""%string
        \/ age = [invalid_date] /\ last_changed r <> ""%string
        \/ exists n t : Z,
             last_changed r <> ""%string
             /\ Py.int_parse (int_max_str_digits E) (last_changed r) = Some n
             /\ fromtimestamp E (n * 86400) = Ok t
             /\ (age = no_expiry_set :: today_part (Py.timedelta_days (now - t))
                 /\ (max_age r = ""%string
                     \/ exists m : Z,
                          Py.int_parse (int_max_str_digits E) (max_age r) = Some m
                          /\ m <= 0)
                 \/ exists m : Z,
                      Py.int_parse (int_max_str_digits E) (max_age r) = Some m
                      /\ 0 < m
                      /\ age = (if m <? Py.timedelta_days (now - t)
                                then [password_expired (Py.timedelta_days (now - t) - m)]
                                else [])
                               ++ today_part (Py.timedelta_days (now - t)))).
Proof.
  rewrite findings_table_correct; unfold findings_table.
  destruct (Py.truthy (last_changed r)) eqn:Hlc.
  2:{ intros [= <-]. exists []. rewrite app_nil_r. split; [reflexivity|].
      left; split; [reflexivity | now apply truthy_empty]. }
  apply truthy_true in Hlc.
  destruct (Py.int_parse _ (last_changed r)) as [n|] eqn:Hn.
  2:{ intros [= <-]. eexists; split; [reflexivity|]. right; left; now split. }
  destruct (fromtimestamp E (n * 86400)) as [t|[|msg]] eqn:Ht.
  - destruct (Py.truthy (max_age r)) eqn:Hma.
    + destruct (Py.int_parse _ (max_age r)) as [m|] eqn:Hm.
      * intros [= <-]. eexists; split; [reflexivity|]. right; right.
        exists n, t. repeat (split; [first [assumption | reflexivity]|]).
        destruct (0 <? m) eqn:Hpos.
        -- right. exists m. apply Z.ltb_lt in Hpos. now repeat split.
        -- left. split; [reflexivity|]. right. exists m.
           apply Z.ltb_ge in Hpos. now split.
      * intros [= <-]. eexists; split; [reflexivity|]. right; left; now split.
    + intros [= <-]. eexists; split; [reflexivity|]. right; right.
      exists n, t. repeat (split; [first [assumption | reflexivity]|]).
      left. split; [reflexivity|]. left. now apply truthy_empty.
  - intros [= <-]. eexists; split; [reflexivity|]. right; left; now split.
  - discriminate.
Qed.

Lemma In_password_findings (pw f : string) :
  In f (password_findings pw) -> f = no_password_set \/ f = stored_in_shadow.
Proof.
  destruct (password_findings_cases pw) as [C|[C|C]]; rewrite C; simpl;
    intros H; [| |destruct H]; destruct H as [<-|[]]; tauto.
Qed.

Lemma password_findings_flagged (pw : string) :
  flagged_password pw -> password_findings pw <> [].
Proof.
  unfold flagged_password; simpl.
  intros [H|[H|[H|[H|[H|[]]]]]]; rewrite <- H; discriminate.
Qed.

Lemma password_findings_unflagged (pw : string) :
  ~ flagged_password pw -> password_findings pw = [].
Proof.
  unfold flagged_password, password_findings, password_check; intros H.
  destruct (Py.str_in pw _) eqn:Hin.
  - exfalso; apply H. unfold Py.str_in in Hin.
    apply existsb_exists in Hin as (x & Hx & Heq).
    apply String.eqb_eq in Heq; subst x. simpl in Hx |- *; tauto.
  - destruct (String.eqb pw "x") eqn:Hx; [|reflexivity].
    apply String.eqb_eq in Hx. exfalso; apply H; rewrite Hx; simpl; tauto.
Qed.

Lemma today_part_length (days : Z) : (List.length (today_part days) <= 1)%nat.
Proof. unfold today_part; destruct (days <? 1); simpl; lia. Qed.

Lemma today_part_age (days : Z) : Forall age_finding (today_part days).
Proof.
  unfold today_part; destruct (days <? 1); constructor; [|constructor].
  unfold age_finding; tauto.
Qed.

(** Where an expiry finding can come from. *)
Lemma In_expired_findings (E : env) (now : Z) (r : credential)
    (fs : list string) (k : Z) :
  findings E now r = Ok fs -> In (password_expired k) fs ->
  exists n t m : Z,
    last_changed r <> ""%string
    /\ Py.int_parse (int_max_str_digits E) (last_changed r) = Some n
    /\ fromtimestamp E (n * 86400) = Ok t
    /\ Py.int_parse (int_max_str_digits E) (max_age r) = Some m
    /\ 0 < m /\ m < Py.timedelta_days (now - t)
    /\ k = Py.timedelta_days (now - t) - m.
Proof.
  intros Hfs Hin.
  destruct (findings_cases E now r fs Hfs) as (age & -> & Hage).
  apply in_app_or in Hin as [Hin|Hin].
  { exfalso. apply (password_findings_not_age _ _ Hin), age_finding_expired. }
  assert (Hfresh := password_expired_fresh k).
  destruct Hage as [[-> _]|[[-> _]|(n & t & Hne & Hn & Ht & Hage)]].
  - destruct Hin.
  - exfalso; apply Hfresh; destruct Hin as [<-|[]]; simpl; tauto.
  - destruct Hage as [[-> _]|(m & Hm & Hpos & ->)].
    + exfalso; apply Hfresh. destruct Hin as [<-|Hin]; [simpl; tauto|].
      apply In_today_part in Hin as [-> _]; simpl; tauto.
    + apply in_app_or in Hin as [Hin|Hin].
      * destruct (m <? _) eqn:Hlt; [|destruct Hin].
        destruct Hin as [Hin|[]]. apply password_expired_inj in Hin.
        apply Z.ltb_lt in Hlt. exists n, t, m. now repeat split.
      * exfalso; apply Hfresh.
        apply In_today_part in Hin as [-> _]; simpl; tauto.
Qed.

(** Where the finding "No password expiry set" can come from. *)
Lemma In_no_expiry_findings (E : env) (now : Z) (r : credential)
    (fs : list string) :
  findings E now r = Ok fs -> In no_expiry_set fs ->
  exists n t : Z,
    last_changed r <> ""%string
    /\ Py.int_parse (int_max_str_digits E) (last_changed r) = Some n
    /\ fromtimestamp E (n * 86400) = Ok t
    /\ (max_age r = ""%string
        \/ exists m : Z,
             Py.int_parse (int_max_str_digits E) (max_age r) = Some m /\ m <= 0).
Proof.
  intros Hfs Hin.
  destruct (findings_cases E now r fs Hfs) as (age & -> & Hage).
  apply in_app_or in Hin as [Hin|Hin].
  { exfalso. apply (password_findings_not_age _ _ Hin). unfold age_finding; tauto. }
  destruct Hage as [[-> _]|[[-> _]|(n & t & Hne & Hn & Ht & Hage)]].
  - destruct Hin.
  - destruct Hin as [Hin|[]]; discriminate Hin.
  - destruct Hage as [[-> Hma]|(m & Hm & Hpos & ->)].
    + now exists n, t.
    + exfalso. apply in_app_or in Hin as [Hin|Hin].
      * destruct (m <? _); [|destruct Hin]. destruct Hin as [Hin|[]].
        apply (password_expired_fresh (Py.timedelta_days (now - t) - m)).
        rewrite Hin; simpl; tauto.
      * apply In_today_part in Hin as [Hin _]; discriminate Hin.
Qed.

(** ** What the findings of a record look like *)

(** X1: a record has at most three findings: first at most one from the
    password check, then at most two from the age checks. *)
Theorem findings_at_most_three (E : env) (now : Z) (r : credential)
    (fs : list string) :
  findings E now r = Ok fs ->
  (List.length fs <= 3)%nat
  /\ exists age : list string,
      fs = password_findings (password_field r) ++ age
      /\ (List.length (password_findings (password_field r)) <= 1)%nat
      /\ (List.length age <= 2)%nat
      /\ Forall age_finding age.
Proof.
  intros Hfs.
  destruct (findings_cases E now r fs Hfs) as (age & -> & Hage).
  assert (Hpw : (List.length (password_findings (password_field r)) <= 1)%nat).
  { destruct (password_findings_cases (password_field r)) as [C|[C|C]];
      rewrite C; simpl; lia. }
  assert (Hlen : (List.length age <= 2)%nat /\ Forall age_finding age).
  { destruct age_finding_fixed as (A1 & A2 & A3).
    destruct Hage as [[-> _]|[[-> _]|(n & t & _ & _ & _ & Hage)]].
    - split; [simpl; lia | constructor].
    - split; [simpl; lia | now repeat constructor].
    - pose proof (today_part_length (Py.timedelta_days (now - t))) as Ht.
      pose proof (today_part_age (Py.timedelta_days (now - t))) as Ha.
      destruct Hage as [[-> _]|(m & _ & _ & ->)].
      + split; [simpl; lia | now constructor].
      + destruct (m <? _); simpl; split; try lia; try assumption.
        constructor; [apply age_finding_expired | assumption]. }
  rewrite length_app. split; [lia|]. exists age. tauto.
Qed.

Lemma findings_at_most_three_witness :
  (List.length [stored_in_shadow; password_expired 10] <= 3)%nat
  /\ exists age : list string,
      [stored_in_shadow; password_expired 10]
      = password_findings (password_field Linux.bob) ++ age
      /\ (List.length (password_findings (password_field Linux.bob)) <= 1)%nat
      /\ (List.length age <= 2)%nat
      /\ Forall age_finding age.
Proof.
  apply (findings_at_most_three Linux.root_env Linux.noon_20000 Linux.bob).
  reflexivity.
Defined.

(** X2: an expiry finding always counts at least one day: "Password
    expired k days ago" among the findings means that the date parsed and
    converted, that [max_age] is a positive integer below the age in days,
    and that [k] is the difference, so [k >= 1]. *)
Theorem expired_count_positive (E : env) (now : Z) (r : credential)
    (fs : list string) (k : Z) :
  findings E now r = Ok fs ->
  In (password_expired k) fs ->
  1 <= k
  /\ exists n t m : Z,
      Py.int_parse (int_max_str_digits E) (last_changed r) = Some n
      /\ fromtimestamp E (n * 86400) = Ok t
      /\ Py.int_parse (int_max_str_digits E) (max_age r) = Some m
      /\ 0 < m
      /\ k = Py.timedelta_days (now - t) - m.
Proof.
  intros Hfs Hin.
  destruct (In_expired_findings E now r fs k Hfs Hin)
    as (n & t & m & _ & Hn & Ht & Hm & Hpos & Hlt & ->).
  split; [lia|]. now exists n, t, m.
Qed.

Lemma expired_count_positive_witness :
  1 <= 10
  /\ exists n t m : Z,
      Py.int_parse 4300 "19900" = Some n
      /\ Linux.fromtimestamp_utc (n * 86400) = Ok t
      /\ Py.int_parse 4300 "90" = Some m
      /\ 0 < m
      /\ 10 = Py.timedelta_days (Linux.noon_20000 - t) - m.
Proof.
  apply (expired_count_positive Linux.root_env Linux.noon_20000 Linux.bob
           [stored_in_shadow; password_expired 10] 10).
  - reflexivity.
  - simpl; tauto.
Defined.

(** X3: "No password expiry set" and "Password expired ... days ago" never
    appear together among the findings of one record. *)
Theorem expired_excludes_no_expiry (E : env) (now : Z) (r : credential)
    (fs : list string) (k : Z) :
  findings E now r = Ok fs ->
  In (password_expired k) fs ->
  ~ In no_expiry_set fs.
Proof.
  intros Hfs Hexp Hno.
  destruct (In_expired_findings E now r fs k Hfs Hexp)
    as (n & t & m & _ & _ & _ & Hm & Hpos & _).
  destruct (In_no_expiry_findings E now r fs Hfs Hno)
    as (n' & t' & _ & _ & _ & [Hempty|(m' & Hm' & Hle)]).
  - rewrite Hempty, int_parse_empty in Hm; discriminate.
  - rewrite Hm in Hm'; injection Hm' as <-; lia.
Qed.

Lemma expired_excludes_no_expiry_witness :
  ~ In no_expiry_set [stored_in_shadow; password_expired 10].
Proof.
  apply (expired_excludes_no_expiry Linux.root_env Linux.noon_20000 Linux.bob
           [stored_in_shadow; password_expired 10] 10).
  - reflexivity.
  - simpl; tauto.
Defined.

(** X4: the recency finding is sound: "Password changed today - verify if
    authorized" among the findings means that the date parsed and converted
    and that the password is less than one day old. *)
Theorem changed_today_sound (E : env) (now : Z) (r : credential)
    (fs : list string) :
  findings E now r = Ok fs ->
  In changed_today fs ->
  exists n t : Z,
    Py.int_parse (int_max_str_digits E) (last_changed r) = Some n
    /\ fromtimestamp E (n * 86400) = Ok t
    /\ Py.timedelta_days (now - t) < 1.
Proof.
  intros Hfs Hin.
  destruct (findings_cases E now r fs Hfs) as (age & -> & Hage).
  apply in_app_or in Hin as [Hin|Hin].
  { exfalso. apply (password_findings_not_age _ _ Hin). unfold age_finding; tauto. }
  destruct Hage as [[-> _]|[[-> _]|(n & t & Hne & Hn & Ht & Hage)]].
  - destruct Hin.
  - destruct Hin as [Hin|[]]; discriminate Hin.
  - exists n, t. split; [exact Hn|]. split; [exact Ht|].
    destruct Hage as [[-> _]|(m & _ & _ & ->)].
    + destruct Hin as [Hin|Hin]; [discriminate Hin|].
      now apply In_today_part in Hin.
    + apply in_app_or in Hin as [Hin|Hin]; [|now apply In_today_part in Hin].
      exfalso. destruct (m <? _); [|destruct Hin]. destruct Hin as [Hin|[]].
      apply (password_expired_fresh (Py.timedelta_days (now - t) - m)).
      rewrite Hin; simpl; tauto.
Qed.

Lemma changed_today_sound_witness :
  exists n t : Z,
    Py.int_parse 4300 "20000" = Some n
    /\ Linux.fromtimestamp_utc (n * 86400) = Ok t
    /\ Py.timedelta_days (Linux.noon_20000 - t) < 1.
Proof.
  apply (changed_today_sound Linux.root_env Linux.noon_20000
           (Linux.entry "x" "20000" "90")
           [stored_in_shadow; changed_today]).
  - reflexivity.
  - simpl; tauto.
Defined.

(** X5: the missing-expiry finding is sound: "No password expiry set" among
    the findings means that the date parsed and converted and that
    [max_age] is empty or an integer at most 0.  A record without a date
    never gets it. *)
Theorem no_expiry_sound (E : env) (now : Z) (r : credential)
    (fs : list string) :
  findings E now r = Ok fs ->
  In no_expiry_set fs ->
  last_changed r <> ""%string
  /\ exists n t : Z,
      Py.int_parse (int_max_str_digits E) (last_changed r) = Some n
      /\ fromtimestamp E (n * 86400) = Ok t
      /\ (max_age r = ""%string
          \/ exists m : Z,
               Py.int_parse (int_max_str_digits E) (max_age r) = Some m
               /\ m <= 0).
Proof.
  intros Hfs Hin.
  destruct (In_no_expiry_findings E now r fs Hfs Hin)
    as (n & t & Hne & Hn & Ht & Hma).
  split; [exact Hne|]. now exists n, t.
Qed.

Lemma no_expiry_sound_witness :
  "20001"%string <> ""%string
  /\ exists n t : Z,
      Py.int_parse 4300 "20001" = Some n
      /\ Linux.fromtimestamp_utc (n * 86400) = Ok t
      /\ ("0"%string = ""%string
          \/ exists m : Z, Py.int_parse 4300 "0" = Some m /\ m <= 0).
Proof.
  apply (no_expiry_sound Linux.root_env Linux.noon_20000
           (Linux.entry "$6$hash" "20001" "0")
           [no_expiry_set; changed_today]).
  - reflexivity.
  - simpl; tauto.
Defined.

(** X6: when a record passes silently.  Its checks end with no finding
    exactly when the password field is none of the empty string, [*], [!],
    [!!] and [x], and either there is no date, or the date parses and
    converts, [max_age] is a positive integer, and the password is at least
    one day and at most [max_age] days old. *)
Theorem silent_pass_iff (E : env) (now : Z) (r : credential) :
  findings E now r = Ok []
  <-> ~ flagged_password (password_field r)
      /\ (last_changed r = ""%string
          \/ exists n t m : Z,
               Py.int_parse (int_max_str_digits E) (last_changed r) = Some n
               /\ fromtimestamp E (n * 86400) = Ok t
               /\ Py.int_parse (int_max_str_digits E) (max_age r) = Some m
               /\ 0 < m
               /\ 1 <= Py.timedelta_days (now - t) <= m).
Proof.
  split.
  - intros Hfs.
    destruct (findings_cases E now r [] Hfs) as (age & Heq & Hage).
    symmetry in Heq. apply app_eq_nil in Heq as [Hpw ->].
    split.
    + intros Hflag. now apply password_findings_flagged in Hflag.
    + destruct Hage as [[_ Hlc]|[[Habs _]|(n & t & _ & Hn & Ht & Hage)]];
        [now left | discriminate Habs |].
      destruct Hage as [[Habs _]|(m & Hm & Hpos & Hage)]; [discriminate Habs|].
      right. exists n, t, m. repeat (split; [assumption|]).
      symmetry in Hage. apply app_eq_nil in Hage as [Hexp Htoday].
      unfold today_part in Htoday.
      destruct (m <? _) eqn:Hlt; [discriminate Hexp|].
      destruct (_ <? 1) eqn:Hone; [discriminate Htoday|].
      apply Z.ltb_ge in Hlt, Hone. lia.
  - intros [Hflag Hage].
    rewrite findings_table_correct; unfold findings_table.
    rewrite (password_findings_unflagged _ Hflag).
    destruct Hage as [->|(n & t & m & Hn & Ht & Hm & Hpos & Hlo & Hhi)];
      [reflexivity|].
    assert (Hlc : Py.truthy (last_changed r) = true).
    { apply truthy_nonempty. intros Hempty.
      rewrite Hempty, int_parse_empty in Hn; discriminate. }
    assert (Hma : Py.truthy (max_age r) = true).
    { apply truthy_nonempty. intros Hempty.
      rewrite Hempty, int_parse_empty in Hm; discriminate. }
    rewrite Hlc, Hn, Ht, Hma, Hm; cbv zeta. unfold today_part.
    apply Z.ltb_lt in Hpos. apply Z.ltb_ge in Hhi, Hlo.
    now rewrite Hpos, Hhi, Hlo.
Qed.

(** X7: a flagged password field is always reported: a line with at least 9
    fields whose password field is the empty string, [*], [!], [!!] or [x]
    and whose checks complete contributes its row to the report, and the
    first finding of the row is the one of the password check. *)
Theorem flagged_password_reported (E : env) (now : Z) (line : string)
    (r : credential) (fs : list string) :
  record_of_line line = Some r ->
  flagged_password (password_field r) ->
  findings E now r = Ok fs ->
  row_of_line E now line = [make_row r fs]
  /\ exists (f : string) (rest : list string),
      fs = f :: rest /\ (f = no_password_set \/ f = stored_in_shadow).
Proof.
  intros Hrec Hflag Hfs.
  assert (Hhead : exists f rest,
             fs = f :: rest /\ (f = no_password_set \/ f = stored_in_shadow)).
  { destruct (findings_cases E now r fs Hfs) as (age & -> & _).
    apply password_findings_flagged in Hflag.
    destruct (password_findings (password_field r)) as [|f pw] eqn:Hpw;
      [congruence|].
    exists f, (pw ++ age). split; [reflexivity|].
    apply (In_password_findings (password_field r)). rewrite Hpw. now left. }
  split; [|exact Hhead].
  destruct Hhead as (f & rest & -> & _).
  unfold row_of_line. now rewrite Hrec, Hfs.
Qed.

Lemma flagged_password_reported_witness :
  row_of_line Linux.root_env Linux.noon_20000 "root:!:19990:0:90:7:::"
  = [make_row (fields (Py.split ":" "root:!:19990:0:90:7:::")) [no_password_set]]
  /\ exists (f : string) (rest : list string),
      [no_password_set] = f :: rest
      /\ (f = no_password_set \/ f = stored_in_shadow).
Proof.
  apply (flagged_password_reported Linux.root_env Linux.noon_20000
           "root:!:19990:0:90:7:::").
  - reflexivity.
  - unfold flagged_password; simpl; tauto.
  - reflexivity.
Defined.

(** ** The same record on a later day *)

Lemma timedelta_days_later (us k : Z) :
  Py.timedelta_days (us + k * Py.day_us) = Py.timedelta_days us + k.
Proof. unfold Py.timedelta_days. apply Z.div_add. discriminate. Qed.

(** X8: an expired password stays expired, one day more per day: if a
    record has the finding "Password expired j days ago" when read at
    [now], then read [k >= 0] whole days later it has "Password expired
    j + k days ago". *)
Theorem expired_grows_by_day (E : env) (now : Z) (r : credential)
    (fs : list string) (j k : Z) :
  findings E now r = Ok fs ->
  In (password_expired j) fs ->
  0 <= k ->
  exists fs' : list string,
    findings E (now + k * Py.day_us) r = Ok fs'
    /\ In (password_expired (j + k)) fs'.
Proof.
  intros Hfs Hin Hk.
  destruct (In_expired_findings E now r fs j Hfs Hin)
    as (n & t & m & Hne & Hn & Ht & Hm & Hpos & Hlt & ->).
  eexists; split;
    [apply (findings_max_age E (now + k * Py.day_us) r n t Hne Hn Ht m Hm)|].
  replace (now + k * Py.day_us - t) with (now - t + k * Py.day_us) by ring.
  rewrite timedelta_days_later.
  assert (H1 : (0 <? m) = true) by now apply Z.ltb_lt.
  assert (H2 : (m <? Py.timedelta_days (now - t) + k) = true)
    by (apply Z.ltb_lt; lia).
  rewrite H1, H2.
  apply in_or_app; right. apply in_or_app; left. left.
  f_equal; ring.
Qed.

Lemma expired_grows_by_day_witness :
  exists fs' : list string,
    findings Linux.root_env (Linux.noon_20000 + 5 * Py.day_us) Linux.bob = Ok fs'
    /\ In (password_expired (10 + 5)) fs'.
Proof.
  apply (expired_grows_by_day Linux.root_env Linux.noon_20000 Linux.bob
           [stored_in_shadow; password_expired 10] 10 5).
  - reflexivity.
  - simpl; tauto.
  - lia.
Defined.

(** ** Records the per-line handler drops *)

(** X9: the checks of a record end in an exception for the per-line
    handler in one case only: the date is non-empty and an integer, and
    [datetime.fromtimestamp] raises something other than [ValueError]; the
    message is that exception's.  A field that fails to parse never drops a
    record. *)
Theorem record_dropped_iff (E : env) (now : Z) (r : credential) (msg : string) :
  findings E now r = Raise msg
  <-> last_changed r <> ""%string
      /\ exists n : Z,
          Py.int_parse (int_max_str_digits E) (last_changed r) = Some n
          /\ fromtimestamp E (n * 86400) = Raise (OtherException msg).
Proof.
  rewrite findings_table_correct; unfold findings_table. split.
  - destruct (Py.truthy (last_changed r)) eqn:Hlc; [|discriminate].
    apply truthy_true in Hlc.
    destruct (Py.int_parse _ (last_changed r)) as [n|]; [|discriminate].
    destruct (fromtimestamp E (n * 86400)) as [t|[|msg']] eqn:Ht.
    + destruct (Py.truthy (max_age r)); [|discriminate].
      destruct (Py.int_parse _ (max_age r)); discriminate.
    + discriminate.
    + intros [= ->]. split; [exact Hlc|]. now exists n.
  - intros (Hne & n & Hn & Ht).
    now rewrite (truthy_nonempty _ Hne), Hn, Ht.
Qed.

(** X10: a dropped line.  When the checks of a line with at least 9 fields
    end in an exception, the loop body collects no row, prints "Error
    processing line for user: " with field 0 and "Error details: " with the
    message, and the loop goes on with the next line. *)
Theorem dropped_line_handled (E : env) (clock : Z) (line : string)
    (r : credential) (msg : string) (st : loop_state) :
  record_of_line line = Some r ->
  findings E clock r = Raise msg ->
  row_of_line E clock line = []
  /\ security_issues (process_line E clock line st) = security_issues st
  /\ trace (process_line E clock line st)
     = trace st ++ dropped_line_prints (username r) msg
  /\ forall (i : nat) (rest : list string),
      now E i = clock ->
      loop E i (line :: rest) st
      = loop E (S i) rest
          {| security_issues := security_issues st;
             trace := trace st ++ dropped_line_prints (username r) msg |}.
Proof.
  intros Hrec Hfs.
  assert (Hrow : row_of_line E clock line = []).
  { unfold row_of_line. now rewrite Hrec, Hfs. }
  assert (Hbody : process_line E clock line st
                  = {| security_issues := security_issues st;
                       trace := trace st ++ dropped_line_prints (username r) msg |}).
  { unfold record_of_line in Hrec. unfold findings in Hfs. unfold process_line.
    destruct (List.length (Py.split ":" (Py.strip line)) <? 9)%nat eqn:Hlen;
      [discriminate|].
    injection Hrec as <-.
    destruct (evaluate E clock _ []) as [[u|msg'] issues]; [discriminate|].
    injection Hfs as ->.
    assert (Hpos : (0 <? List.length (Py.split ":" (Py.strip line)))%nat = true).
    { apply Nat.ltb_ge in Hlen. apply Nat.ltb_lt. lia. }
    rewrite Hpos. unfold print, dropped_line_prints; simpl.
    now rewrite <- app_assoc. }
  split; [exact Hrow|]. rewrite Hbody. split; [reflexivity|].
  split; [reflexivity|].
  intros i rest Hclock. simpl. now rewrite Hclock, Hbody.
Qed.

Lemma dropped_line_handled_witness :
  trace (process_line Linux.root_env Linux.noon_20000
           "eve:*:999999999999999999999999999999:0:90:7:::"
           {| security_issues := []; trace := [] |})
  = [Print "Error processing line for user: eve";
     Print "Error details: timestamp out of range for platform time_t"].
Proof.
  destruct (dropped_line_handled Linux.root_env Linux.noon_20000
              "eve:*:999999999999999999999999999999:0:90:7:::"
              (fields (Py.split ":" "eve:*:999999999999999999999999999999:0:90:7:::"))
              "timestamp out of range for platform time_t"
              {| security_issues := []; trace := [] |})
    as (_ & _ & H & _).
  - reflexivity.
  - reflexivity.
  - exact H.
Defined.

(** X11: a line that is read to the end prints nothing.  When a line has at
    least 9 fields and its checks complete, the loop body leaves the trace
    as it was and appends the row of the line, if any, to
    [security_issues]: the only console output of the loop comes from
    malformed and dropped lines. *)
Theorem completed_line_is_quiet (E : env) (clock : Z) (line : string)
    (r : credential) (fs : list string) (st : loop_state) :
  record_of_line line = Some r ->
  findings E clock r = Ok fs ->
  trace (process_line E clock line st) = trace st
  /\ security_issues (process_line E clock line st)
     = security_issues st ++ (if Py.nonempty fs then [make_row r fs] else []).
Proof.
  intros Hrec Hfs.
  unfold record_of_line in Hrec. unfold findings in Hfs. unfold process_line.
  destruct (List.length (Py.split ":" (Py.strip line)) <? 9)%nat;
    [discriminate|].
  injection Hrec as <-.
  destruct (evaluate E clock _ []) as [[u|msg'] issues]; [|discriminate].
  injection Hfs as ->.
  destruct fs as [|f fs]; simpl; [now rewrite app_nil_r | split; reflexivity].
Qed.

Lemma completed_line_is_quiet_witness :
  trace (process_line Linux.root_env Linux.noon_20000 "bob:x:19900:0:90:7:::"
           {| security_issues := []; trace := [Print "before"] |})
  = [Print "before"]
  /\ security_issues
       (process_line Linux.root_env Linux.noon_20000 "bob:x:19900:0:90:7:::"
          {| security_issues := []; trace := [Print "before"] |})
     = [] ++ (if Py.nonempty [stored_in_shadow; password_expired 10]
              then [make_row (fields (Py.split ":" "bob:x:19900:0:90:7:::"))
                      [stored_in_shadow; password_expired 10]]
              else []).
Proof.
  apply (completed_line_is_quiet Linux.root_env Linux.noon_20000
           "bob:x:19900:0:90:7:::"
           (fields (Py.split ":" "bob:x:19900:0:90:7:::"))
           [stored_in_shadow; password_expired 10]
           {| security_issues := []; trace := [Print "before"] |});
    reflexivity.
Defined.

(** ** Splitting a line into fields *)

Lemma split_nonempty (sep : ascii) (s : string) : Py.split sep s <> [].
Proof.
  destruct s as [|c s]; simpl; [discriminate|].
  destruct (Ascii.eqb c sep); [discriminate|].
  destruct (Py.split sep s); discriminate.
Qed.

Lemma split_length (sep : ascii) (s : string) :
  List.length (Py.split sep s) = S (count_char sep s).
Proof.
  induction s as [|c s IH]; simpl; [reflexivity|].
  destruct (Ascii.eqb c sep); simpl; [now rewrite IH|].
  destruct (Py.split sep s) as [|f fs] eqn:Hs; [now apply split_nonempty in Hs|].
  exact IH.
Qed.

Lemma split_no_separator (sep : ascii) (s : string) :
  Forall (fun f => count_char sep f = 0%nat) (Py.split sep s).
Proof.
  induction s as [|c s IH]; simpl; [now repeat constructor|].
  destruct (Ascii.eqb c sep) eqn:Hc; [now constructor|].
  destruct (Py.split sep s) as [|f fs]; [repeat constructor; simpl; now rewrite Hc|].
  inversion IH as [|? ? Hf Hfs]; subst.
  constructor; [simpl; now rewrite Hc | exact Hfs].
Qed.

Lemma nth_no_separator (sep : ascii) (s : string) (k : nat) :
  count_char sep (nth k (Py.split sep s) EmptyString) = 0%nat.
Proof.
  destruct (Nat.lt_ge_cases k (List.length (Py.split sep s))) as [Hlt|Hge].
  - pose proof (split_no_separator sep s) as H.
    rewrite Forall_forall in H. apply H. now apply nth_In.
  - now rewrite nth_overflow.
Qed.

(** X12: which lines are well-formed.  A line has a record (is not skipped
    as malformed) exactly when its text, stripped of surrounding white
    space, holds at least 8 colons. *)
Theorem well_formed_iff_eight_colons (line : string) :
  (exists r : credential, record_of_line line = Some r)
  <-> (8 <= count_char ":" (Py.strip line))%nat.
Proof.
  unfold record_of_line. rewrite split_length.
  destruct (S (count_char ":" (Py.strip line)) <? 9)%nat eqn:Hlen.
  - apply Nat.ltb_lt in Hlen. split; [intros (r & H); discriminate | lia].
  - apply Nat.ltb_ge in Hlen. split; [lia | intros _; now eexists].
Qed.

(** X13: no field of a record holds a colon: the fields are cut at every
    colon of the stripped line, so the user name, the password field and
    the four age fields are free of it. *)
Theorem fields_have_no_colon (line : string) (r : credential) :
  record_of_line line = Some r ->
  count_char ":" (username r) = 0%nat
  /\ count_char ":" (password_field r) = 0%nat
  /\ count_char ":" (last_changed r) = 0%nat
  /\ count_char ":" (min_age r) = 0%nat
  /\ count_char ":" (max_age r) = 0%nat
  /\ count_char ":" (warning_period r) = 0%nat.
Proof.
  unfold record_of_line.
  destruct (_ <? 9)%nat; [discriminate|]. intros [= <-].
  unfold fields; simpl. repeat split; apply nth_no_separator.
Qed.

Lemma fields_have_no_colon_witness :
  count_char ":" "bob" = 0%nat
  /\ count_char ":" "x" = 0%nat
  /\ count_char ":" "19900" = 0%nat
  /\ count_char ":" "0" = 0%nat
  /\ count_char ":" "90" = 0%nat
  /\ count_char ":" "7" = 0%nat.
Proof.
  apply (fields_have_no_colon "bob:x:19900:0:90:7:::"
           (fields (Py.split ":" "bob:x:19900:0:90:7:::"))).
  reflexivity.
Defined.

(** X14: splitting loses nothing: joining the fields of a string with the
    separator gives the string back. *)
Theorem split_join_roundtrip (sep : ascii) (s : string) :
  Py.join (String sep EmptyString) (Py.split sep s) = s.
Proof.
  induction s as [|c s IH]; simpl; [reflexivity|].
  destruct (Ascii.eqb c sep) eqn:Hc.
  - apply Ascii.eqb_eq in Hc; subst c.
    destruct (Py.split sep s) as [|f fs] eqn:Hs; [now apply split_nonempty in Hs|].
    simpl. f_equal. exact IH.
  - destruct (Py.split sep s) as [|f fs] eqn:Hs; [now apply split_nonempty in Hs|].
    destruct fs as [|g fs]; simpl in *; now rewrite <- IH.
Qed.

(** ** Stripping a line *)

Lemma rstrip_with_head (p : ascii -> bool) (c : ascii) (s : string) :
  p c = false -> exists r, Py.rstrip_with p (String c s) = String c r.
Proof.
  intros Hc; simpl.
  destruct (Py.rstrip_with p s); [rewrite Hc|]; now eexists.
Qed.

Lemma rstrip_with_idempotent (p : ascii -> bool) (s : string) :
  Py.rstrip_with p (Py.rstrip_with p s) = Py.rstrip_with p s.
Proof.
  induction s as [|c s IH]; simpl; [reflexivity|].
  destruct (Py.rstrip_with p s) as [|d r] eqn:Hr.
  - destruct (p c) eqn:Hc; simpl; [reflexivity | now rewrite Hc].
  - change (Py.rstrip_with p (String c (String d r)) = String c (String d r)).
    cbn [Py.rstrip_with]. cbn [Py.rstrip_with] in IH. now rewrite IH.
Qed.

Lemma lstrip_with_head (p : ascii -> bool) (s : string) :
  Py.lstrip_with p s = EmptyString
  \/ exists c r, Py.lstrip_with p s = String c r /\ p c = false.
Proof.
  induction s as [|c s IH]; simpl; [now left|].
  destruct (p c) eqn:Hc; [exact IH | right; now exists c, s].
Qed.

Lemma strip_idempotent (s : string) : Py.strip (Py.strip s) = Py.strip s.
Proof.
  unfold Py.strip.
  destruct (lstrip_with_head Py.isspace s) as [->|(c & r & -> & Hc)];
    [reflexivity|].
  destruct (rstrip_with_head Py.isspace c r Hc) as (u & Hu).
  rewrite Hu. cbn [Py.lstrip_with]. rewrite Hc, <- Hu.
  apply rstrip_with_idempotent.
Qed.

(** X15: white space around a line does not matter: the loop body treats
    a line and its stripped text alike (the same rows, the same prints). *)
Theorem surrounding_whitespace_ignored (E : env) (clock : Z) (line : string)
    (st : loop_state) :
  process_line E clock (Py.strip line) st = process_line E clock line st.
Proof. unfold process_line. now rewrite strip_idempotent. Qed.

(** ** The rows the loop collects *)

Lemma report_rows_length (E : env) (lines : list string) :
  forall i : nat, (List.length (report_rows E i lines) <= List.length lines)%nat.
Proof.
  induction lines as [|line rest IH]; intros i; simpl; [lia|].
  rewrite length_app. specialize (IH (S i)).
  assert ((List.length (row_of_line E (now E i) line) <= 1)%nat); [|lia].
  unfold row_of_line. destruct (record_of_line line); [|simpl; lia].
  destruct (findings E (now E i) c) as [[|f fs]|msg]; simpl; lia.
Qed.

Lemma age_finding_nonempty (f : string) : age_finding f -> f <> ""%string.
Proof. intros [->|[->|[->|[k ->]]]]; discriminate. Qed.

Lemma finding_nonempty (E : env) (now : Z) (r : credential) (fs : list string)
    (f : string) :
  findings E now r = Ok fs -> In f fs -> f <> ""%string.
Proof.
  intros Hfs Hin.
  destruct (findings_cases E now r fs Hfs) as (age & -> & Hage).
  apply in_app_or in Hin as [Hin|Hin].
  { apply In_password_findings in Hin as [->| ->]; discriminate. }
  destruct Hage as [[-> _]|[[-> _]|(n & t & _ & _ & _ & Hage)]].
  - destruct Hin.
  - destruct Hin as [<-|[]]; discriminate.
  - destruct Hage as [[-> _]|(m & _ & _ & ->)].
    + destruct Hin as [<-|Hin]; [discriminate|].
      apply In_today_part in Hin as [-> _]; discriminate.
    + apply in_app_or in Hin as [Hin|Hin].
      * destruct (m <? _); [|destruct Hin]. destruct Hin as [<-|[]]; discriminate.
      * apply In_today_part in Hin as [-> _]; discriminate.
Qed.

Lemma join_nonempty (sep f : string) (rest : list string) :
  f <> ""%string -> Py.join sep (f :: rest) <> ""%string.
Proof.
  intros Hf. destruct f as [|c f]; [congruence|].
  simpl. destruct rest; discriminate.
Qed.

(** X16: the loop only adds to [security_issues]: the rows collected before
    stay in place, in order, and at most one row per line read is added
    behind them. *)
Theorem loop_only_appends_rows (E : env) (i : nat) (lines : list string)
    (st : loop_state) :
  exists more : list issue_row,
    security_issues (loop E i lines st) = security_issues st ++ more
    /\ (List.length more <= List.length lines)%nat.
Proof.
  exists (report_rows E i lines). split.
  - apply loop_spec.
  - apply report_rows_length.
Qed.

(** X17: no row without issues: if every row collected so far has a
    non-empty [issues] text, so has every row collected after the loop. *)
Theorem rows_have_issues (E : env) (i : nat) (lines : list string)
    (st : loop_state) :
  (forall row : issue_row,
      In row (security_issues st) -> row_issues row <> ""%string) ->
  forall row : issue_row,
    In row (security_issues (loop E i lines st)) -> row_issues row <> ""%string.
Proof.
  intros Hst row Hin.
  destruct (loop_spec E lines i st) as [Hrows _]. rewrite Hrows in Hin.
  apply in_app_or in Hin as [Hin|Hin]; [now apply Hst|].
  apply In_report_rows in Hin as (j & line & _ & Hin).
  apply In_row_of_line in Hin as (r & fs & _ & Hfs & Hne & ->).
  destruct fs as [|f fs]; [congruence|].
  unfold make_row; cbn [row_issues].
  apply join_nonempty.
  apply (finding_nonempty E _ r (f :: fs) f Hfs). now left.
Qed.

Lemma rows_have_issues_witness :
  row_issues
    (make_row (fields (Py.split ":" "bob:x:19900:0:90:7:::"))
       [stored_in_shadow; password_expired 10])
  <> ""%string.
Proof.
  apply (rows_have_issues
           (Linux.environment 0 Linux.noon_20000 "/etc/shadow" [])
           0 ["bob:x:19900:0:90:7:::"; "carol:x:19000:0"]
           {| security_issues := []; trace := [] |}).
  - intros row [].
  - left; reflexivity.
Defined.

(** ** The driver *)

Lemma reads_app (t1 t2 : list event) : reads (t1 ++ t2) = reads t1 ++ reads t2.
Proof. apply flat_map_app. Qed.

Lemma writes_app (t1 t2 : list event) : writes (t1 ++ t2) = writes t1 ++ writes t2.
Proof. apply flat_map_app. Qed.

Lemma written_concat (path : string) (t1 t2 : list event) :
  written path (t1 ++ t2) = written path t1 ++ written path t2.
Proof. apply flat_map_app. Qed.

Lemma prints_silent (out : list string) :
  reads (map Print out) = [] /\ writes (map Print out) = [].
Proof. induction out as [|s out [IH1 IH2]]; split; simpl; auto. Qed.

Lemma handle_silent (path input_path : string) (e : run_exn) :
  reads (handle input_path e) = []
  /\ writes (handle input_path e) = []
  /\ written path (handle input_path e) = [].
Proof. destruct e; repeat split. Qed.

Lemma written_cons_row (path : string) (c : list string) (t : list event) :
  written path (WriteRow path c :: t) = c :: written path t.
Proof. unfold written; simpl. now rewrite String.eqb_refl. Qed.

Lemma write_report_events (output_path : string) (rows : list issue_row) :
  reads (write_report output_path rows) = []
  /\ Forall (eq output_path) (writes (write_report output_path rows))
  /\ written output_path (write_report output_path rows)
     = fieldnames :: map cells rows.
Proof.
  unfold write_report. split; [|split].
  - simpl. rewrite reads_app; simpl. rewrite app_nil_r.
    induction rows as [|row rows IH]; [reflexivity | exact IH].
  - simpl. constructor; [reflexivity|]. rewrite writes_app; simpl.
    rewrite app_nil_r. induction rows as [|row rows IH]; simpl; auto.
  - rewrite written_cons_row, written_concat, written_rows.
    cbn [written flat_map]. now rewrite app_nil_r.
Qed.

(** The five ways a run can go, with the trace of each. *)
Lemma analyze_cases (E : env) (input_path output_path : string) :
  let run := analyze_shadow_file E input_path output_path in
  let opening := [Print "Attempting to read shadow file..."; OpenRead input_path] in
  (geteuid E <> 0
   /\ run = handle input_path
              (PermissionError "This script must be run as root to access /etc/shadow"))
  \/ (geteuid E = 0
      /\ exists e, open_read E input_path = Raise e
                   /\ run = opening ++ handle input_path e)
  \/ (geteuid E = 0
      /\ exists lines e out,
          open_read E input_path = Ok (lines, Some e)
          /\ run = opening ++ map Print out ++ handle input_path e)
  \/ (geteuid E = 0
      /\ exists lines e out,
          open_read E input_path = Ok (lines, None)
          /\ open_write E output_path = Raise e
          /\ run = opening ++ map Print out
                   ++ OpenWrite output_path :: handle input_path e)
  \/ (geteuid E = 0
      /\ exists lines u out,
          open_read E input_path = Ok (lines, None)
          /\ open_write E output_path = Ok u
          /\ run = opening ++ map Print out
                   ++ OpenWrite output_path
                      :: write_report output_path (report_rows E 0 lines)).
Proof.
  intros run opening; subst run. unfold analyze_shadow_file.
  destruct (geteuid E =? 0) eqn:Heuid; simpl.
  2:{ left. apply Z.eqb_neq in Heuid. now split. }
  apply Z.eqb_eq in Heuid. right.
  destruct (open_read E input_path) as [[lines failure]|e] eqn:Hread.
  2:{ left. split; [exact Heuid|]. now exists e. }
  right.
  match goal with
  | |- context [loop E 0 lines ?s] =>
      destruct (loop_spec E lines 0 s) as (Hrows & out & Hout)
  end.
  simpl in Hrows, Hout. rewrite Hout, Hrows.
  destruct failure as [e|].
  { left. split; [exact Heuid|]. exists lines, e, out.
    split; [reflexivity|]. subst opening; simpl; rewrite <- ?app_assoc; reflexivity. }
  right.
  destruct (open_write E output_path) as [u|e] eqn:Hwrite.
  - right. split; [exact Heuid|]. exists lines, u, out.
    split; [reflexivity|]. split; [reflexivity|]. subst opening; simpl; rewrite <- ?app_assoc; reflexivity.
  - left. split; [exact Heuid|]. exists lines, e, out.
    split; [reflexivity|]. split; [reflexivity|]. subst opening; simpl; rewrite <- ?app_assoc; reflexivity.
Qed.

Lemma reads_opening (s input_path : string) (t : list event) :
  reads (Print s :: OpenRead input_path :: t) = input_path :: reads t.
Proof. reflexivity. Qed.

Lemma reads_open_write (path : string) (t : list event) :
  reads (OpenWrite path :: t) = reads t.
Proof. reflexivity. Qed.

Lemma writes_opening (s input_path : string) (t : list event) :
  writes (Print s :: OpenRead input_path :: t) = writes t.
Proof. reflexivity. Qed.

Lemma writes_open_write (path : string) (t : list event) :
  writes (OpenWrite path :: t) = path :: writes t.
Proof. reflexivity. Qed.

Lemma written_opening (path s input_path : string) (t : list event) :
  written path (Print s :: OpenRead input_path :: t) = written path t.
Proof. reflexivity. Qed.

Lemma written_open_write (path p : string) (t : list event) :
  written path (OpenWrite p :: t) = written path t.
Proof. reflexivity. Qed.

Ltac run_cases E input_path output_path :=
  let H := fresh "Hrun" in
  pose proof (analyze_cases E input_path output_path) as H; cbv zeta in H;
  destruct H as [(Heuid & Hrun)
                |[(Heuid & e' & Hread & Hrun)
                 |[(Heuid & lines' & e' & out & Hread & Hrun)
                  |[(Heuid & lines' & e' & out & Hread & Hwrite & Hrun)
                   |(Heuid & lines' & u' & out & Hread & Hwrite & Hrun)]]]].

(** X18: the input is opened exactly when the caller is root: the run
    opens [input_path] for reading once when the effective uid is 0, never
    otherwise, and it opens no other file for reading. *)
Theorem input_read_iff_root (E : env) (input_path output_path : string) :
  reads (analyze_shadow_file E input_path output_path)
  = if geteuid E =? 0 then [input_path] else [].
Proof.
  run_cases E input_path output_path; rewrite Hrun.
  - apply Z.eqb_neq in Heuid. rewrite Heuid. apply handle_silent; exact input_path.
  - rewrite Heuid; cbn [app Z.eqb]. rewrite reads_opening.
    now rewrite (proj1 (handle_silent input_path input_path e')).
  - rewrite Heuid; cbn [app Z.eqb].
    rewrite reads_opening, reads_app, (proj1 (prints_silent out)).
    now rewrite (proj1 (handle_silent input_path input_path e')).
  - rewrite Heuid; cbn [app Z.eqb].
    rewrite reads_opening, reads_app, (proj1 (prints_silent out)), reads_open_write.
    now rewrite (proj1 (handle_silent input_path input_path e')).
  - rewrite Heuid; cbn [app Z.eqb].
    rewrite reads_opening, reads_app, (proj1 (prints_silent out)), reads_open_write.
    now rewrite (proj1 (write_report_events output_path _)).
Qed.

Lemma process_line_diagnostics (E : env) (clock : Z) (line : string)
    (st : loop_state) :
  trace (process_line E clock line st)
  = trace st ++ map Print (line_diagnostics E clock line).
Proof.
  unfold process_line, line_diagnostics, record_of_line, findings.
  destruct (List.length (Py.split ":" (Py.strip line)) <? 9)%nat eqn:Hlen;
    [reflexivity|].
  assert (Hpos : (0 <? List.length (Py.split ":" (Py.strip line)))%nat = true).
  { apply Nat.ltb_ge in Hlen. apply Nat.ltb_lt. lia. }
  rewrite Hpos.
  destruct (evaluate E clock _ []) as [[u|msg] issues].
  - destruct (Py.nonempty issues); simpl; now rewrite app_nil_r.
  - simpl. now rewrite <- app_assoc.
Qed.

Lemma loop_diagnostics (E : env) (lines : list string) :
  forall (i : nat) (st : loop_state),
    trace (loop E i lines st) = trace st ++ map Print (diagnostics E i lines).
Proof.
  induction lines as [|line rest IH]; intros i st; simpl.
  - now rewrite app_nil_r.
  - now rewrite IH, process_line_diagnostics, map_app, app_assoc.
Qed.

(** X19: a failure of the input leaves no output.  When the input cannot
    be opened, the run as root prints the progress line and the message of
    the failure.  When reading breaks off after some lines, it prints the
    progress line, then the diagnostics of the lines read so far (one skip
    diagnostic per malformed line, the two error lines per dropped line,
    in input order), then the message of the failure.  In both cases no
    output file is opened or written. *)
Theorem read_failure_leaves_no_output (E : env) (input_path output_path : string)
    (e : run_exn) :
  geteuid E = 0 ->
  open_read E input_path = Raise e
  \/ (exists lines, open_read E input_path = Ok (lines, Some e)) ->
  writes (analyze_shadow_file E input_path output_path) = []
  /\ analyze_shadow_file E input_path output_path
     = [Print "Attempting to read shadow file..."; OpenRead input_path]
       ++ map Print
            (match open_read E input_path with
             | Ok (lines, _) => diagnostics E 0 lines
             | Raise _ => []
             end)
       ++ handle input_path e.
Proof.
  intros Hroot Hfail.
  assert (Hrun : analyze_shadow_file E input_path output_path
                 = [Print "Attempting to read shadow file..."; OpenRead input_path]
                   ++ map Print
                        (match open_read E input_path with
                         | Ok (lines, _) => diagnostics E 0 lines
                         | Raise _ => []
                         end)
                   ++ handle input_path e).
  { unfold analyze_shadow_file. rewrite Hroot; cbn [Z.eqb negb].
    destruct Hfail as [Hfail|(lines & Hfail)]; rewrite Hfail; cbn [trace].
    - reflexivity.
    - rewrite loop_diagnostics; cbn [trace]. now rewrite <- app_assoc. }
  split; [|exact Hrun].
  rewrite Hrun. cbn [app].
  rewrite writes_opening, writes_app.
  match goal with
  | |- context [writes (map Print ?out)] => rewrite (proj2 (prints_silent out))
  end.
  apply handle_silent; exact input_path.
Qed.

(** Reading breaks off after a malformed line and a dropped line. *)
Lemma read_failure_leaves_no_output_witness :
  writes (analyze_shadow_file (broken_read_env ["carol:x:19000:0"; eve_line])
            "/etc/shadow" "shadow_analysis.csv") = []
  /\ analyze_shadow_file (broken_read_env ["carol:x:19000:0"; eve_line])
       "/etc/shadow" "shadow_analysis.csv"
     = [Print "Attempting to read shadow file..."; OpenRead "/etc/shadow"]
       ++ map Print
            (match open_read (broken_read_env ["carol:x:19000:0"; eve_line])
                     "/etc/shadow" with
             | Ok (lines, _) =>
                 diagnostics (broken_read_env ["carol:x:19000:0"; eve_line]) 0 lines
             | Raise _ => []
             end)
       ++ handle "/etc/shadow"
            (UnexpectedError
               "'utf-8' codec can't decode byte 0xff in position 0: invalid start byte").
Proof.
  apply (read_failure_leaves_no_output
           (broken_read_env ["carol:x:19000:0"; eve_line])
           "/etc/shadow" "shadow_analysis.csv"
           (UnexpectedError
              "'utf-8' codec can't decode byte 0xff in position 0: invalid start byte")).
  - reflexivity.
  - right; eexists; reflexivity.
Defined.

(** The same run, spelled out. *)
Example read_failure_sample :
  analyze_shadow_file (broken_read_env ["carol:x:19000:0"; eve_line])
    "/etc/shadow" "shadow_analysis.csv"
  = [Print "Attempting to read shadow file...";
     OpenRead "/etc/shadow";
     Print "Skipping malformed line: carol:x:19000:0";
     Print "Error processing line for user: eve";
     Print "Error details: timestamp out of range for platform time_t";
     Print "An unexpected error occurred: 'utf-8' codec can't decode byte 0xff in position 0: invalid start byte"]%string.
Proof. vm_compute. reflexivity. Qed.

(** X20: a failure to open the output.  When the input was read to the end
    and the output cannot be opened, nothing is written; the failure is
    reported by the handlers of the outer [try], so that a
    [FileNotFoundError] for the output path is printed as "Error: Could
    not find shadow file at " followed by the input path. *)
Theorem output_open_failure (E : env) (input_path output_path : string)
    (lines : list string) (e : run_exn) :
  geteuid E = 0 ->
  open_read E input_path = Ok (lines, None) ->
  open_write E output_path = Raise e ->
  written output_path (analyze_shadow_file E input_path output_path) = []
  /\ writes (analyze_shadow_file E input_path output_path) = [output_path]
  /\ (exists out : list string,
        analyze_shadow_file E input_path output_path
        = [Print "Attempting to read shadow file..."; OpenRead input_path]
          ++ map Print out ++ OpenWrite output_path :: handle input_path e)
  /\ (e = FileNotFoundError ->
      last (analyze_shadow_file E input_path output_path) (Print "")
      = Print ("Error: Could not find shadow file at " ++ input_path)).
Proof.
  intros Hroot Hr Hw.
  run_cases E input_path output_path; try congruence.
  assert (e' = e) as -> by congruence.
  rewrite Hrun. split; [|split; [|split]].
  - cbn [app]. rewrite written_opening, written_concat, written_prints.
    rewrite written_open_write. apply handle_silent.
  - cbn [app]. rewrite writes_opening, writes_app, (proj2 (prints_silent out)).
    rewrite writes_open_write. cbn [app].
    f_equal. apply handle_silent; exact input_path.
  - now exists out.
  - intros ->. unfold handle.
    replace ([Print "Attempting to read shadow file..."; OpenRead input_path]
             ++ map Print out
             ++ [OpenWrite output_path;
                 Print ("Error: Could not find shadow file at " ++ input_path)])
      with (([Print "Attempting to read shadow file..."; OpenRead input_path]
             ++ map Print out ++ [OpenWrite output_path])
            ++ [Print ("Error: Could not find shadow file at " ++ input_path)])
      by (now rewrite <- !app_assoc).
    apply last_last.
Qed.

Lemma output_open_failure_witness :
  last (analyze_shadow_file (no_output_env ["bob:x:19900:0:90:7:::"])
          "/etc/shadow" "/nonexistent/report.csv") (Print "")
  = Print "Error: Could not find shadow file at /etc/shadow".
Proof.
  destruct (output_open_failure (no_output_env ["bob:x:19900:0:90:7:::"])
              "/etc/shadow" "/nonexistent/report.csv"
              ["bob:x:19900:0:90:7:::"] FileNotFoundError)
    as (_ & _ & _ & H); [reflexivity | reflexivity | reflexivity |].
  apply H. reflexivity.
Defined.

(** X21: the summary counts the rows.  A run that writes the report ends
    with the two summary prints, and the count in "Analysis complete. Found
    n potential security issues." is the number of rows written after the
    header, at most one per line of the input. *)
Theorem summary_counts_rows (E : env) (input_path output_path : string)
    (lines : list string) (u : unit) :
  geteuid E = 0 ->
  open_read E input_path = Ok (lines, None) ->
  open_write E output_path = Ok u ->
  exists (body : list event) (n : nat),
    analyze_shadow_file E input_path output_path
    = body ++ summary_prints output_path n
    /\ List.length (written output_path
                      (analyze_shadow_file E input_path output_path)) = S n
    /\ (n <= List.length lines)%nat.
Proof.
  intros Hroot Hr Hw.
  run_cases E input_path output_path; try congruence.
  assert (lines' = lines) as -> by congruence.
  exists ([Print "Attempting to read shadow file..."; OpenRead input_path]
          ++ map Print out
          ++ OpenWrite output_path :: WriteRow output_path fieldnames
             :: map (fun row => WriteRow output_path (cells row))
                  (report_rows E 0 lines)),
         (List.length (report_rows E 0 lines)).
  split; [|split].
  - rewrite Hrun. unfold write_report, summary_prints.
    cbn [app]. do 2 f_equal. rewrite <- app_assoc. reflexivity.
  - rewrite Hrun. cbn [app].
    rewrite written_opening, written_concat, written_prints, written_open_write.
    rewrite (proj2 (proj2 (write_report_events output_path _))).
    cbn [app List.length]. now rewrite length_map.
  - apply report_rows_length.
Qed.

Lemma summary_counts_rows_witness :
  exists (body : list event) (n : nat),
    analyze_shadow_file
      (Linux.environment 0 Linux.noon_20000 "/etc/shadow"
         ["bob:x:19900:0:90:7:::"; "carol:x:19000:0"])
      "/etc/shadow" "shadow_analysis.csv"
    = body ++ summary_prints "shadow_analysis.csv" n
    /\ List.length
         (written "shadow_analysis.csv"
            (analyze_shadow_file
               (Linux.environment 0 Linux.noon_20000 "/etc/shadow"
                  ["bob:x:19900:0:90:7:::"; "carol:x:19000:0"])
               "/etc/shadow" "shadow_analysis.csv")) = S n
    /\ (n <= List.length ["bob:x:19900:0:90:7:::"; "carol:x:19000:0"]%string)%nat.
Proof.
  apply (summary_counts_rows
           (Linux.environment 0 Linux.noon_20000 "/etc/shadow"
              ["bob:x:19900:0:90:7:::"; "carol:x:19000:0"])
           "/etc/shadow" "shadow_analysis.csv"
           ["bob:x:19900:0:90:7:::"; "carol:x:19000:0"] tt); reflexivity.
Defined.

(** X22: the run writes to the output path only: every file it opens for
    writing or writes a row to is [output_path]. *)
Theorem writes_only_output_path (E : env) (input_path output_path : string) :
  Forall (eq output_path) (writes (analyze_shadow_file E input_path output_path)).
Proof.
  run_cases E input_path output_path; rewrite Hrun; cbn [app].
  - rewrite (proj1 (proj2 (handle_silent input_path input_path _))). constructor.
  - rewrite writes_opening,
      (proj1 (proj2 (handle_silent input_path input_path e'))). constructor.
  - rewrite writes_opening, writes_app, (proj2 (prints_silent out)),
      (proj1 (proj2 (handle_silent input_path input_path e'))). constructor.
  - rewrite writes_opening, writes_app, (proj2 (prints_silent out)),
      writes_open_write,
      (proj1 (proj2 (handle_silent input_path input_path e'))).
    now repeat constructor.
  - rewrite writes_opening, writes_app, (proj2 (prints_silent out)),
      writes_open_write.
    constructor; [reflexivity|]. apply write_report_events.
Qed.

(** X23: no partial report: a row is written to the output only in a run
    as root whose input was read to the end and whose output could be
    opened. *)
Theorem rows_written_only_after_full_read (E : env)
    (input_path output_path : string) :
  written output_path (analyze_shadow_file E input_path output_path) <> [] ->
  geteuid E = 0
  /\ (exists lines, open_read E input_path = Ok (lines, None))
  /\ (exists u, open_write E output_path = Ok u).
Proof.
  intros Hrows.
  run_cases E input_path output_path; rewrite Hrun in Hrows; cbn [app] in Hrows.
  - exfalso; apply Hrows. apply handle_silent.
  - exfalso; apply Hrows. rewrite written_opening. apply handle_silent.
  - exfalso; apply Hrows.
    rewrite written_opening, written_concat, written_prints. apply handle_silent.
  - exfalso; apply Hrows.
    rewrite written_opening, written_concat, written_prints, written_open_write.
    apply handle_silent.
  - split; [exact Heuid|]. split; [now exists lines' | now exists u'].
Qed.

Lemma rows_written_only_after_full_read_witness :
  geteuid (Linux.environment 0 Linux.noon_20000 "/etc/shadow"
             ["bob:x:19900:0:90:7:::"]) = 0
  /\ (exists lines,
        open_read (Linux.environment 0 Linux.noon_20000 "/etc/shadow"
                     ["bob:x:19900:0:90:7:::"]) "/etc/shadow"
        = Ok (lines, None))
  /\ (exists u,
        open_write (Linux.environment 0 Linux.noon_20000 "/etc/shadow"
                      ["bob:x:19900:0:90:7:::"]) "shadow_analysis.csv"
        = Ok u).
Proof.
  apply (rows_written_only_after_full_read
           (Linux.environment 0 Linux.noon_20000 "/etc/shadow"
              ["bob:x:19900:0:90:7:::"])
           "/etc/shadow" "shadow_analysis.csv").
  discriminate.
Defined.

(** ** The clock *)

(** X24: only the day count matters.  Two readings of the clock that give
    the record the same age in whole days give it the same findings; a
    record whose date is empty, does not parse or does not convert has the
    same findings whenever it is read. *)
Theorem findings_depend_on_day_only (E : env) (now1 now2 : Z) (r : credential) :
  (forall n t : Z,
      Py.int_parse (int_max_str_digits E) (last_changed r) = Some n ->
      fromtimestamp E (n * 86400) = Ok t ->
      Py.timedelta_days (now1 - t) = Py.timedelta_days (now2 - t)) ->
  findings E now1 r = findings E now2 r.
Proof.
  intros Hdays. rewrite !findings_table_correct; unfold findings_table.
  destruct (Py.truthy (last_changed r)); [|reflexivity].
  destruct (Py.int_parse _ (last_changed r)) as [n|]; [|reflexivity].
  destruct (fromtimestamp E (n * 86400)) as [t|e] eqn:Ht; [|reflexivity].
  now rewrite (Hdays n t eq_refl Ht).
Qed.

(** Noon and the last microsecond of day 20000, for [bob]. *)
Lemma findings_depend_on_day_only_witness :
  findings Linux.root_env Linux.noon_20000 Linux.bob
  = findings Linux.root_env (Linux.before_midnight + Py.day_us) Linux.bob.
Proof.
  apply (findings_depend_on_day_only Linux.root_env Linux.noon_20000
           (Linux.before_midnight + Py.day_us) Linux.bob).
  intros n t Hn Ht.
  injection Hn as <-. injection Ht as <-. reflexivity.
Defined.
